(** * estimate-generator-cli: the invoice computation pipeline

    A shallow embedding of [lib/utils.js], [lib/validation.js] and
    [lib/replacement.js].  ECMAScript Numbers are the kernel's binary64
    floats, ECMAScript Strings are sequences of UTF-16 code units, a
    [throw new Error(msg)] is the [Throw msg] result. *)

From Stdlib Require Import ZArith QArith Qround Qabs Floats Ascii String Lia.
From Stdlib Require Import DecimalPos DecimalN.
From stdpp Require Import gmap list.

Set Warnings "-inexact-float".

Local Open Scope Z_scope.

(** ** Strings *)

(** An ECMAScript String value: its UTF-16 code units. *)
Abbreviation jsstring := (list N).

(** A Basic Latin literal as code units. *)
Definition str (s : string) : jsstring :=
  map N_of_ascii (list_ascii_of_string s).

Fixpoint join (sep : jsstring) (l : list jsstring) : jsstring :=
  match l with
  | [] => []
  | [x] => x
  | x :: rest => x ++ sep ++ join sep rest
  end.

Definition isDigit (c : N) : bool := ((48 <=? c) && (c <=? 57))%N.

Definition digitValue (c : N) : Z := Z.of_N c - 48.

(** WhiteSpace and LineTerminator code points (StrWhiteSpaceChar). *)
Definition isStrWhiteSpaceChar (c : N) : bool :=
  bool_decide (c ∈ [9; 10; 11; 12; 13; 32; 160; 5760; 8232; 8233; 8239; 8287;
                     12288; 65279]%N)
  || ((8192 <=? c) && (c <=? 8202))%N.

Definition isLineTerminator (c : N) : bool :=
  bool_decide (c ∈ [10; 13; 8232; 8233]%N).

Fixpoint trimStart (s : jsstring) : jsstring :=
  match s with
  | c :: rest => if isStrWhiteSpaceChar c then trimStart rest else s
  | [] => []
  end.

Fixpoint takeDigits (s : jsstring) : jsstring * jsstring :=
  match s with
  | c :: rest =>
      if isDigit c then let (d, r) := takeDigits rest in (c :: d, r)
      else ([], s)
  | [] => ([], [])
  end.

(** The mathematical value of a run of decimal digits. *)
Definition digitsValue (ds : jsstring) : Z :=
  fold_left (fun acc c => 10 * acc + digitValue c) ds 0.

Fixpoint uintDigits (d : Decimal.uint) : jsstring :=
  match d with
  | Decimal.Nil => []
  | Decimal.D0 d => 48%N :: uintDigits d
  | Decimal.D1 d => 49%N :: uintDigits d
  | Decimal.D2 d => 50%N :: uintDigits d
  | Decimal.D3 d => 51%N :: uintDigits d
  | Decimal.D4 d => 52%N :: uintDigits d
  | Decimal.D5 d => 53%N :: uintDigits d
  | Decimal.D6 d => 54%N :: uintDigits d
  | Decimal.D7 d => 55%N :: uintDigits d
  | Decimal.D8 d => 56%N :: uintDigits d
  | Decimal.D9 d => 57%N :: uintDigits d
  end.

(** Decimal digits of a non-negative integer, most significant first. *)
Definition digitsOfZ (z : Z) : jsstring := uintDigits (N.to_uint (Z.to_N z)).

(** ** Numbers *)

(** The real number a finite float denotes. *)
Definition F2Q (x : float) : option Q :=
  match Prim2SF x with
  | S754_zero _ => Some 0%Q
  | S754_finite s m e =>
      let v := (inject_Z (Zpos m) * Qpower 2 e)%Q in
      Some (if s then Qopp v else v)
  | S754_infinity _ | S754_nan => None
  end.

(** Round-to-nearest, ties-to-even, of an integer. *)
Definition Z2F (z : Z) : float := SF2Prim (binary_normalize prec emax z 0 false).

(** Round-to-nearest, ties-to-even, of a positive rational [a/b]: the
    quotient is taken with more than 53 significant bits and a sticky bit
    for the remainder, then rounded once. *)
Definition posQ2F (a b : positive) : float :=
  let s := Z.max 0 (Z.log2 (Zpos b) - Z.log2 (Zpos a) + 64) in
  let (qt, r) := Z.div_eucl (Zpos a * 2 ^ s) (Zpos b) in
  let m := 2 * qt + (if r =? 0 then 0 else 1) in
  SF2Prim (binary_normalize prec emax m (- s - 1) false).

Definition Q2F (q : Q) : float :=
  match Qnum q with
  | Z0 => 0%float
  | Zpos a => posQ2F a (Qden q)
  | Zneg a => (- posQ2F a (Qden q))%float
  end.

(** [Number.isNaN] on a Number. *)
Definition isNaN (x : float) : bool := PrimFloat.is_nan x.

(** [Number.isInteger] on a Number: finite, and equal to its floor. *)
Definition isIntegralNumber (x : float) : bool :=
  match F2Q x with
  | Some q => Qeq_bool q (inject_Z (Qfloor q))
  | None => false
  end.

(** [Math.round]: the nearest integer, ties towards +∞; an integral
    argument, NaN and the infinities are returned as they are, and a
    negative argument that rounds to zero gives -0. *)
Definition Math_round (x : float) : float :=
  match F2Q x with
  | None => x
  | Some q =>
      if Qeq_bool q (inject_Z (Qfloor q)) then x
      else if (x <? 0)%float && (-0.5 <=? x)%float then (-0)%float
      else Z2F (Qfloor (q + (1 # 2))%Q)
  end.


(** *** Numeric literals (StrDecimalLiteral) *)

Inductive numLit :=
  | LitInfinity (neg : bool)
  | LitDecimal (neg : bool) (m : Z) (e : Z).   (* ± m × 10^e *)

(** The Number a literal denotes (RoundMVResult, correctly rounded). *)
Definition litValue (l : numLit) : float :=
  match l with
  | LitInfinity neg => if neg then neg_infinity else infinity
  | LitDecimal neg m e =>
      let v := Q2F (inject_Z m * Qpower 10 e)%Q in
      if neg then (- v)%float else v
  end.

Fixpoint stripPrefix (p s : jsstring) : option jsstring :=
  match p, s with
  | [], _ => Some s
  | a :: p', b :: s' => if (a =? b)%N then stripPrefix p' s' else None
  | _ :: _, [] => None
  end.

(** An optional sign: [true] for "-". *)
Definition parseSign (s : jsstring) : bool * jsstring :=
  match s with
  | 43%N :: t => (false, t)
  | 45%N :: t => (true, t)
  | _ => (false, s)
  end.

(** ExponentPart, when one is there: its value and what follows it. *)
Definition parseExponent (s : jsstring) : Z * jsstring :=
  match s with
  | c :: t =>
      if ((c =? 101) || (c =? 69))%N then
        let (neg, t') := parseSign t in
        let (ds, r) := takeDigits t' in
        match ds with
        | [] => (0, s)
        | _ => (if neg then - digitsValue ds else digitsValue ds, r)
        end
      else (0, s)
  | [] => (0, s)
  end.

(** The longest prefix that is digits with an optional fraction and an
    optional exponent: mantissa, decimal exponent and the rest. *)
Definition parseUnsignedDecimal (s : jsstring) : option (Z * Z * jsstring) :=
  let (ip, r1) := takeDigits s in
  match r1 with
  | 46%N :: r2 =>
      let (fp, r3) := takeDigits r2 in
      match ip, fp with
      | [], [] => None
      | _, _ =>
          let (e, r4) := parseExponent r3 in
          Some (digitsValue (ip ++ fp), e - Z.of_nat (length fp), r4)
      end
  | _ =>
      match ip with
      | [] => None
      | _ => let (e, r4) := parseExponent r1 in Some (digitsValue ip, e, r4)
      end
  end.

(** The longest prefix of [s] that is a StrDecimalLiteral. *)
Definition parseStrDecimalLiteral (s : jsstring) : option (numLit * jsstring) :=
  let (neg, t) := parseSign s in
  match stripPrefix (str "Infinity") t with
  | Some r => Some (LitInfinity neg, r)
  | None =>
      match parseUnsignedDecimal t with
      | Some (m, e, r) => Some (LitDecimal neg m e, r)
      | None => None
      end
  end.

(** [parseFloat] on a String. *)
Definition parseFloatString (s : jsstring) : float :=
  match parseStrDecimalLiteral (trimStart s) with
  | Some (l, _) => litValue l
  | None => nan
  end.

(** [parseInt(s, 10)] on a String. *)
Definition parseIntString (s : jsstring) : float :=
  let (neg, t) := parseSign (trimStart s) in
  let (ds, _) := takeDigits t in
  match ds with
  | [] => nan
  | _ => let v := Z2F (digitsValue ds) in if neg then (- v)%float else v
  end.

(** Digits of a NonDecimalIntegerLiteral in the given radix. *)
Definition radixDigit (radix : Z) (c : N) : option Z :=
  let d := if isDigit c then digitValue c
           else if ((97 <=? c) && (c <=? 102))%N then Z.of_N c - 87
           else if ((65 <=? c) && (c <=? 70))%N then Z.of_N c - 55
           else radix in
  if d <? radix then Some d else None.

Fixpoint radixValue (radix : Z) (acc : Z) (s : jsstring) : Z * jsstring :=
  match s with
  | c :: t =>
      match radixDigit radix c with
      | Some d => radixValue radix (radix * acc + d) t
      | None => (acc, s)
      end
  | [] => (acc, [])
  end.

Definition parseNonDecimal (s : jsstring) : option (Z * jsstring) :=
  match s with
  | 48%N :: p :: (c :: _) as t =>
      let radix := if ((p =? 120) || (p =? 88))%N then 16
                   else if ((p =? 111) || (p =? 79))%N then 8
                   else if ((p =? 98) || (p =? 66))%N then 2
                   else 0 in
      match radixDigit radix c with
      | Some _ => Some (radixValue radix 0 t)
      | None => None
      end
  | _ => None
  end.

(** StringToNumber: the whole string, white space trimmed, must be a
    numeric literal; the empty string is +0. *)
Definition StringToNumber (s : jsstring) : float :=
  let t := trimStart s in
  match t with
  | [] => 0%float
  | _ =>
      match parseNonDecimal t with
      | Some (z, r) => match trimStart r with [] => Z2F z | _ => nan end
      | None =>
          match parseStrDecimalLiteral t with
          | Some (l, r) => match trimStart r with [] => litValue l | _ => nan end
          | None => nan
          end
      end
  end.

(** *** Number::toString and Number.prototype.toFixed *)

(** The [n] with [10^(n-1) <= v < 10^n], for positive [v]: an estimate
    from the binary logarithms, corrected by comparison. *)
Fixpoint decimalExponentFrom (fuel : nat) (v : Q) (n : Z) : Z :=
  match fuel with
  | O => n
  | S f =>
      if Qle_bool (Qpower 10 n) v then decimalExponentFrom f v (n + 1)
      else if Qle_bool (Qpower 10 (n - 1)) v then n
      else decimalExponentFrom f v (n - 1)
  end.

Definition decimalExponent (v : Q) : Z :=
  decimalExponentFrom 8 v
    ((Z.log2 (Qnum v) - Z.log2 (Zpos (Qden v))) * 30103 / 100000).

(** The [k]-digit candidates next to [v]: [s × 10^(n-k)] with [s] just
    below and just above; the one that reads back as [x], the closer one
    (then the even one) when both do. *)
Definition digitsCandidate (x : float) (v : Q) (n0 k : Z) : option (Z * Z * Z) :=
  let scale := Qpower 10 (n0 - k) in
  let lo := Qfloor (v / scale) in
  let hi := lo + 1 in
  let ok (c : Z) := (Q2F (inject_Z c * scale) =? x)%float in
  let norm (c : Z) := if c =? 10 ^ k then (n0 + 1, k, 10 ^ (k - 1)) else (n0, k, c) in
  match ok lo, ok hi with
  | false, false => None
  | true, false => Some (norm lo)
  | false, true => Some (norm hi)
  | true, true =>
      match Qcompare (v - inject_Z lo * scale) (inject_Z hi * scale - v) with
      | Lt => Some (norm lo)
      | Gt => Some (norm hi)
      | Eq => Some (norm (if Z.even lo then lo else hi))
      end
  end.

(** The least [k], and with it [n] and [s], such that [s × 10^(n-k)] is
    the Number [x] (positive and finite, of real value [v]). *)
Definition shortestDigits (x : float) (v : Q) : Z * Z * Z :=
  let n0 := decimalExponent v in
  let found := omap (digitsCandidate x v n0) (Z.of_nat <$> seq 1 17) in
  match found with
  | r :: _ => r
  | [] => (n0, 17, Qfloor (v / Qpower 10 (n0 - 17)))
  end.

Definition zeros (n : Z) : jsstring := replicate (Z.to_nat n) 48%N.

(** Number::toString, radix 10, for a positive finite Number whose
    shortest digits are [ds] (there are [k] of them) at exponent [n]. *)
Definition formatShortest (n k : Z) (ds : jsstring) : jsstring :=
  if (k <=? n) && (n <=? 21) then ds ++ zeros (n - k)
  else if (0 <? n) && (n <=? 21) then
    take (Z.to_nat n) ds ++ str "." ++ drop (Z.to_nat n) ds
  else if (-6 <? n) && (n <=? 0) then str "0." ++ zeros (- n) ++ ds
  else
    let e := n - 1 in
    let exponent := str (if e <? 0 then "-" else "+") ++ digitsOfZ (Z.abs e) in
    if k =? 1 then ds ++ str "e" ++ exponent
    else take 1 ds ++ str "." ++ drop 1 ds ++ str "e" ++ exponent.

Definition NumberToString (x : float) : jsstring :=
  if PrimFloat.is_nan x then str "NaN"
  else if PrimFloat.is_zero x then str "0"
  else
    let a := PrimFloat.abs x in
    str (if (x <? 0)%float then "-" else "") ++
    match F2Q a with
    | None => str "Infinity"
    | Some v => let '(n, k, s) := shortestDigits a v in formatShortest n k (digitsOfZ s)
    end.

(** [x.toFixed(2)]. *)
Definition toFixed2 (x : float) : jsstring :=
  match F2Q x with
  | None => NumberToString x
  | Some q =>
      let v := Qabs q in
      str (if Qle_bool 0 q then "" else "-") ++
      if Qle_bool (Qpower 10 21) v then NumberToString (PrimFloat.abs x)
      else
        let n := Qfloor (v * 100 + (1 # 2))%Q in
        let m := digitsOfZ n in
        let m := zeros (3 - Z.of_nat (length m)) ++ m in
        let k := length m in
        take (k - 2)%nat m ++ str "." ++ drop (k - 2)%nat m
  end.

(** ** Values *)

(** The objects a property read on an object literal can return besides
    its own values: the members of [Object.prototype]. *)
Inductive hostObject :=
  | BuiltinFunction (name : jsstring)
  | ObjectPrototype.

(** The ECMAScript values the pipeline meets. *)
Inductive JsValue :=
  | JUndefined
  | JNull
  | JNum (x : float)
  | JStr (s : jsstring)
  | JObject (o : hostObject).

(** ToString.  A built-in function prints as Node prints it. *)
Definition ToString (v : JsValue) : jsstring :=
  match v with
  | JUndefined => str "undefined"
  | JNull => str "null"
  | JNum x => NumberToString x
  | JStr s => s
  | JObject (BuiltinFunction name) =>
      str "function " ++ name ++ str "() { [native code] }"
  | JObject ObjectPrototype => str "[object Object]"
  end.

(** ToNumber; an object goes through its string form. *)
Definition ToNumber (v : JsValue) : float :=
  match v with
  | JUndefined => nan
  | JNull => 0%float
  | JNum x => x
  | JStr s => StringToNumber s
  | JObject _ => StringToNumber (ToString v)
  end.

(** ToBoolean. *)
Definition ToBoolean (v : JsValue) : bool :=
  match v with
  | JUndefined | JNull => false
  | JNum x => negb (PrimFloat.is_zero x || PrimFloat.is_nan x)
  | JStr s => negb (bool_decide (s = []))
  | JObject _ => true
  end.

(** [Number.isNaN]: false on anything that is not a Number. *)
Definition Number_isNaN (v : JsValue) : bool :=
  match v with
  | JNum x => isNaN x
  | _ => false
  end.

(** [Number.isInteger]: false on anything that is not a Number. *)
Definition Number_isInteger (v : JsValue) : bool :=
  match v with
  | JNum x => isIntegralNumber x
  | _ => false
  end.

(** [parseFloat(v)] is [parseFloat] of [ToString(v)].  On a Number the
    string is the shortest one that reads back as that Number, "0" for
    both zeros: the result is the Number itself, +0 for -0. *)
Definition parseFloat (v : JsValue) : float :=
  match v with
  | JNum x => if PrimFloat.is_zero x then 0%float else x
  | _ => parseFloatString (ToString v)
  end.

(** [parseInt(v, 10)]. *)
Definition parseInt (v : JsValue) : float := parseIntString (ToString v).

(** [Array.prototype.join]: undefined and null elements print as "". *)
Definition arrayJoin (sep : jsstring) (l : list JsValue) : jsstring :=
  join sep (map (fun v => match v with
                          | JUndefined | JNull => []
                          | _ => ToString v
                          end) l).

(** [String.prototype.toLowerCase], exact on Basic Latin and on the two
    characters outside it whose lower case has a Basic Latin letter
    (U+212A KELVIN SIGN, U+0130).  Other characters stay as they are:
    their lower case is outside Basic Latin as well. *)
Definition toLowerCase (s : jsstring) : jsstring :=
  s ≫= fun c =>
    if ((65 <=? c) && (c <=? 90))%N then [c + 32]%N
    else if (c =? 8490)%N then [107%N]
    else if (c =? 304)%N then [105%N; 775%N]
    else [c].

(** ** Failures *)

Inductive result (A : Type) :=
  | Ok (a : A)
  | Throw (message : jsstring).
Arguments Ok {A} a.
Arguments Throw {A} message.

Definition bind {A B} (r : result A) (k : A -> result B) : result B :=
  match r with
  | Ok a => k a
  | Throw m => Throw m
  end.

Notation "x <- r ;; k" := (bind r (fun x => k))
  (at level 100, r at next level, right associativity).

(** [xs.map(f)] with an [f] that may throw: the first failure wins. *)
Fixpoint mapResult {A B} (f : A -> result B) (l : list A) : result (list B) :=
  match l with
  | [] => Ok []
  | a :: rest => b <- f a ;; bs <- mapResult f rest ;; Ok (b :: bs)
  end.

(** ** lib/utils.js *)

Definition CURRENCIES : list (jsstring * jsstring) :=
  [ (str "usd", str "$");
    (str "aud", str "$");
    (str "gbp", [163%N]);
    (str "eur", [8364%N]);
    (str "inr", [8377%N]);
    (str "brl", str "R$");
    (str "cad", str "$");
    (str "hkd", str "$");
    (str "ils", [8362%N]);
    (str "jpy", [165%N]);
    (str "mxn", str "$");
    (str "twd", str "NT$");
    (str "nzd", str "$");
    (str "php", str "P");
    (str "sgd", str "$");
    (str "thb", [3647%N]);
    (str "kes", str "Ksh");
    (str "ngn", [8358%N]) ].

Definition isEmpty (value : JsValue) : bool :=
  match value with
  | JUndefined | JNull => true
  | JStr [] => true
  | _ => false
  end.

Definition cleanPrice (price : JsValue) : JsValue :=
  if isEmpty price then JNull else JNum (parseFloat price).

Definition cleanNumber (num : JsValue) : JsValue :=
  if isEmpty num then JNull else JNum (parseInt num).

(** [Object.prototype]'s members, as a property read finds them. *)
Definition objectPrototypeGet (key : jsstring) : JsValue :=
  if bool_decide (key = str "constructor") then
    JObject (BuiltinFunction (str "Object"))
  else if bool_decide (key = str "__proto__") then JObject ObjectPrototype
  else if bool_decide
            (key ∈ str <$> [ "hasOwnProperty"; "isPrototypeOf";
                             "propertyIsEnumerable"; "toLocaleString";
                             "toString"; "valueOf"; "__defineGetter__";
                             "__defineSetter__"; "__lookupGetter__";
                             "__lookupSetter__" ]%string) then
    JObject (BuiltinFunction key)
  else JUndefined.

(** [curr[code]] on one entry [{ key: symbol }] of the table. *)
Definition currencyGet (curr : jsstring * jsstring) (code : jsstring) : JsValue :=
  if bool_decide (curr.1 = code) then JStr curr.2 else objectPrototypeGet code.

Definition getCurrencySymbol (currencyCode : jsstring) : JsValue :=
  let code := toLowerCase currencyCode in
  match List.find (fun curr => ToBoolean (currencyGet curr code)) CURRENCIES with
  | Some currencyObj => currencyGet currencyObj code
  | None => JStr []
  end.

Definition formatPrice (value : JsValue) (currency : jsstring) : jsstring :=
  arrayJoin [] (filter (fun v => ToBoolean v = true)
                  [getCurrencySymbol currency; JStr (toFixed2 (parseFloat value))]).

Definition calculatePercentage (value percent : JsValue) : result float :=
  if Number_isNaN value || Number_isNaN percent then
    Throw (str "Both 'value' and 'percent' must be valid numbers.")
  else Ok ((ToNumber value * ToNumber percent) / 100)%float.

(** ** lib/validation.js *)

(** A row of the table after [validateAndFilterColumns]: the three
    expected columns and nothing else. *)
Module Row.
Record t := make { item : JsValue; price : JsValue; qty : JsValue }.
End Row.

(** A row after [calculateUnitTotals]. *)
Module LineItem.
Record t := make {
  item : JsValue;
  price : JsValue;
  qty : JsValue;
  total : float;
  priceHtml : jsstring;
  totalHtml : jsstring;
  priceWithTax : float;
  totalWithTax : float;
  priceHtmlWithTax : jsstring;
  totalHtmlWithTax : jsstring
}.
End LineItem.

(** The argument of [calculateInvoiceTotals], as [extractInvoiceData]
    builds it: [currency] is always a String there. *)
Module Invoice.
Record t := make {
  tables : list LineItem.t;
  tax : JsValue;
  otherFee : JsValue;
  discount : JsValue;
  currency : jsstring
}.
End Invoice.

(** The value of [calculateInvoiceTotals]. *)
Module Totals.
Record t := make {
  subtotal : float;
  tax : JsValue;
  taxAmt : float;
  discount : JsValue;
  otherFee : JsValue;
  otherFeeAmt : float;
  total : float;
  subtotalHtml : jsstring;
  taxAmtHtml : jsstring;
  otherFeeAmtHtml : jsstring;
  discountHtml : jsstring;
  totalHtml : jsstring
}.
End Totals.

(** [amount !== null && !Number.isNaN(cleanPrice(amount)) && amount > 0] *)
Definition isValidAmount (amount : JsValue) : bool :=
  negb (match amount with JNull => true | _ => false end)
  && negb (Number_isNaN (cleanPrice amount))
  && (0 <? ToNumber amount)%float.

Definition validatePrice (value : JsValue) : bool :=
  let parsedValue := cleanPrice value in
  negb (Number_isNaN parsedValue).

Definition validateQty (value : JsValue) : bool :=
  let parsedValue := cleanNumber value in
  negb (Number_isNaN parsedValue) && Number_isInteger parsedValue.

Definition expectedColumn (row : gmap jsstring JsValue) (column : jsstring)
  : result JsValue :=
  match row !! column with
  | Some v => Ok v
  | None => Throw (str "Missing expected column '" ++ column ++ str "'")
  end.

Definition validateAndFilterColumns (data : list (gmap jsstring JsValue))
  : result (list Row.t) :=
  mapResult (fun row =>
    item <- expectedColumn row (str "item") ;;
    price <- expectedColumn row (str "price") ;;
    qty <- expectedColumn row (str "qty") ;;
    Ok (Row.make item price qty)) data.

(** The decimal form of an array index plus one. *)
Definition indexPlusOne (index : nat) : jsstring := digitsOfZ (Z.of_nat index + 1).

Definition isUndefined (v : JsValue) : bool :=
  match v with JUndefined => true | _ => false end.

(** The callback of [data.flatMap] in [validateDataRows]. *)
Definition rowErrors (index : nat) (row : Row.t) : list jsstring :=
  (if negb (isUndefined (Row.price row)) && negb (validatePrice (Row.price row))
   then [str "Object " ++ indexPlusOne index ++ str ": Invalid Price"] else [])
  ++
  (if negb (isUndefined (Row.qty row)) && negb (validateQty (Row.qty row))
   then [str "Object " ++ indexPlusOne index ++ str ": Invalid Qty"] else []).

Definition validationErrors (data : list Row.t) : list jsstring :=
  mjoin (imap rowErrors data).

Definition validateDataRows (data : list Row.t) : result unit :=
  let errors := validationErrors data in
  match errors with
  | [] => Ok tt
  | _ => Throw (join [10%N] errors)
  end.

(** The callback of [data.map] in [calculateUnitTotals]; [serviceTax]
    is the parameter after its default has been applied. *)
Definition unitTotals (currency : jsstring) (serviceTax : JsValue) (row : Row.t)
  : result LineItem.t :=
  let price := Row.price row in
  let qty := Row.qty row in
  let formatAmount amount := formatPrice amount currency in
  let priceWithoutTax := cleanPrice price in
  let totalWithoutTax := (ToNumber qty * ToNumber priceWithoutTax)%float in
  let taxRate := if isValidAmount serviceTax then cleanPrice serviceTax else JNum 0 in
  percentage <- calculatePercentage priceWithoutTax taxRate ;;
  let priceWithTax := (ToNumber priceWithoutTax + percentage)%float in
  let totalWithTax := (ToNumber qty * priceWithTax)%float in
  Ok {| LineItem.item := Row.item row;
        LineItem.price := priceWithoutTax;
        LineItem.qty := qty;
        LineItem.total := totalWithoutTax;
        LineItem.priceHtml := formatAmount price;
        LineItem.totalHtml := formatAmount (JNum totalWithoutTax);
        LineItem.priceWithTax := priceWithTax;
        LineItem.totalWithTax := totalWithTax;
        LineItem.priceHtmlWithTax := formatAmount (JNum priceWithTax);
        LineItem.totalHtmlWithTax := formatAmount (JNum totalWithTax) |}.

(** [calculateUnitTotals(data, currency, serviceTax = 1)]: an undefined
    third argument takes the default. *)
Definition calculateUnitTotals (data : list Row.t) (currency : jsstring)
    (serviceTax : JsValue) : result (list LineItem.t) :=
  let serviceTax := match serviceTax with JUndefined => JNum 1 | v => v end in
  mapResult (unitTotals currency serviceTax) data.

Definition calculateAmount (value : JsValue) : JsValue :=
  if isValidAmount value then cleanPrice value else JNum 0.

Definition calculateInvoiceTotals (data : Invoice.t) : result Totals.t :=
  let currency := Invoice.currency data in
  let tax := calculateAmount (Invoice.tax data) in
  let otherFee := calculateAmount (Invoice.otherFee data) in
  let discount := calculateAmount (Invoice.discount data) in
  let subtotal :=
    fold_left (fun acc row => (acc + LineItem.totalWithTax row)%float)
      (Invoice.tables data) 0%float in
  taxAmt <- calculatePercentage (JNum subtotal) tax ;;
  otherFeeAmt <- calculatePercentage (JNum subtotal) otherFee ;;
  let total := (subtotal + taxAmt + otherFeeAmt - ToNumber discount)%float in
  let formatAmount amount := formatPrice amount currency in
  Ok {| Totals.subtotal := subtotal;
        Totals.tax := tax;
        Totals.taxAmt := taxAmt;
        Totals.discount := discount;
        Totals.otherFee := otherFee;
        Totals.otherFeeAmt := otherFeeAmt;
        Totals.total := total;
        Totals.subtotalHtml := formatAmount (JNum subtotal);
        Totals.taxAmtHtml := formatAmount (JNum taxAmt);
        Totals.otherFeeAmtHtml := formatAmount (JNum otherFeeAmt);
        Totals.discountHtml := formatAmount discount;
        Totals.totalHtml := formatAmount (JNum (Math_round total)) |}.

(** ** lib/replacement.js *)

(** [/{{(.*?)}}/] tried right after an opening "{{": the shortest run of
    characters other than line terminators that is followed by "}}".
    Gives the captured name and what follows the match. *)
Fixpoint matchUntilClose (s : jsstring) : option (jsstring * jsstring) :=
  match s with
  | 125%N :: 125%N :: rest => Some ([], rest)
  | c :: rest =>
      if isLineTerminator c then None
      else '(name, after) ← matchUntilClose rest; Some (c :: name, after)
  | [] => None
  end.

(** The regular expression tried at the head of [s]. *)
Definition matchPlaceholder (s : jsstring) : option (jsstring * jsstring) :=
  match s with
  | 123%N :: 123%N :: rest => matchUntilClose rest
  | _ => None
  end.

(** The replacement callback. *)
Definition replacement (data : gmap jsstring JsValue) (placeholder : jsstring)
  : jsstring :=
  match data !! placeholder with
  | Some v => ToString v
  | None => str "{{" ++ placeholder ++ str "}}"
  end.

(** [html.replace(regex, callback)] with the global flag: matches are
    looked for from left to right and do not overlap.  [skip] counts the
    code units of the current match that are still to be passed over. *)
Fixpoint replaceFrom (data : gmap jsstring JsValue) (skip : nat) (html : jsstring)
  : jsstring :=
  match html with
  | [] => []
  | c :: rest =>
      match skip with
      | S n => replaceFrom data n rest
      | O =>
          match matchPlaceholder html with
          | Some (placeholder, _) =>
              replacement data placeholder
                ++ replaceFrom data (length placeholder + 3) rest
          | None => c :: replaceFrom data 0 rest
          end
      end
  end.

Definition replacePlaceholders (html : jsstring) (data : gmap jsstring JsValue)
  : jsstring :=
  replaceFrom data 0 html.

Section Table.
(** [slugify(latinize(key), { lower: true })], from the two packages of
    these names. *)
Variable slugKey : jsstring -> jsstring.

(** [slugifyObjectKeys] (lib/utils.js) on an object given by its own
    properties in key order: a later key with the same slug overwrites
    an earlier one.  An assignment to ["__proto__"] creates no property. *)
Definition slugifyObjectKeys (obj : list (jsstring * JsValue))
  : gmap jsstring JsValue :=
  fold_left (fun slugifiedObj kv =>
               let slugifiedKey := slugKey kv.1 in
               if bool_decide (slugifiedKey = str "__proto__") then slugifiedObj
               else <[slugifiedKey := kv.2]> slugifiedObj) obj ∅.

(** [parseAndValidateTable] from the value of [parseTable(marked(markdown))]:
    [None] when that value or its [results] is missing, otherwise the
    tables found, each a list of rows. *)
Definition parseAndValidateTable
    (jsonTables : option (list (list (list (jsstring * JsValue)))))
  : result (list Row.t) :=
  let tables := default [] jsonTables in
  match tables with
  | [] => Throw (str "Please provide an estimate table in the markdown content.")
  | first :: _ =>
      let table := map slugifyObjectKeys first in
      filteredTable <- validateAndFilterColumns table ;;
      _ <- validateDataRows filteredTable ;;
      Ok filteredTable
  end.
End Table.

(** ** lib/utils.js: description and notes *)

(** [String.prototype.trim] removes the white space and line terminators
    at both ends. *)
Fixpoint trimEnd (s : jsstring) : jsstring :=
  match s with
  | [] => []
  | c :: rest =>
      match trimEnd rest with
      | [] => if isStrWhiteSpaceChar c then [] else [c]
      | kept => c :: kept
      end
  end.

Definition trim (s : jsstring) : jsstring := trimEnd (trimStart s).

(** [s.split("\n")]: the pieces between line feeds; one empty piece for
    the empty string. *)
Fixpoint splitLines (s : jsstring) : list jsstring :=
  match s with
  | [] => [[]]
  | c :: rest =>
      if (c =? 10)%N then [] :: splitLines rest
      else
        match splitLines rest with
        | line :: lines => (c :: line) :: lines
        | [] => [[c]]
        end
  end.

(** The [lines] of [parseDescription] and of [parseNotes]:
    [inputString.trim().split("\n").filter((line) => line.trim() !== "")]. *)
Definition nonBlankLines (inputString : jsstring) : list jsstring :=
  List.filter (fun line => negb (bool_decide (trim line = [])))
    (splitLines (trim inputString)).

(** A double-quoted attribute value. *)
Definition quoted (s : string) : jsstring := 34%N :: str s ++ [34%N].

Definition parseDescription (inputString : jsstring) : jsstring :=
  let lines := nonBlankLines inputString in
  match lines with
  | [] => []
  | _ =>
      let paragraphs :=
        join [] (map (fun line => str "<p>" ++ line ++ str "</p>") lines) in
      str "<div class=" ++ quoted "my-4" ++ str ">" ++ paragraphs ++ str "</div>"
  end.

Definition parseNotes (inputString : jsstring) : jsstring :=
  let lines := nonBlankLines inputString in
  match lines with
  | [] => []
  | _ =>
      let orderedList :=
        join [] (map (fun line => str "<li>" ++ line ++ str "</li>") lines) in
      str "<h6 class=" ++ quoted "fw-bold" ++ str ">Notes:</h6><ol>"
        ++ orderedList ++ str "</ol>"
  end.

(** ** lib/table.js *)

(** The callback of [data.map] in [generateTableBody]. *)
Definition tableBodyRow (index : nat) (item : LineItem.t) : jsstring :=
  10%N :: str "    <tr>" ++
  10%N :: str "      <td>" ++ indexPlusOne index ++ str "</td>" ++
  10%N :: str "      <td class=" ++ quoted "text-start" ++ str ">"
    ++ ToString (LineItem.item item) ++ str "</td>" ++
  10%N :: str "      <td>" ++ LineItem.priceHtmlWithTax item ++ str "</td>" ++
  10%N :: str "      <td>" ++ ToString (LineItem.qty item) ++ str "</td>" ++
  10%N :: str "      <td>" ++ LineItem.totalHtmlWithTax item ++ str "</td>" ++
  10%N :: str "    </tr>".

Definition generateTableBody (data : list LineItem.t) : jsstring :=
  str "<tbody>" ++ join [] (imap tableBodyRow data) ++ str "</tbody>".

(** The inner function [placeholder] of [generateTableFoot]. *)
Definition placeholder (label value : jsstring) : jsstring :=
  10%N :: str "    <tr>" ++
  10%N :: str "      <td></td>" ++
  10%N :: str "      <td colspan=" ++ quoted "3" ++ str " class=" ++ quoted "text-end"
    ++ str ">" ++ label ++ str ":</td>" ++
  10%N :: str "      <td>" ++ value ++ str "</td>" ++
  10%N :: str "    </tr>" ++
  10%N :: str "  ".

(** The last row pushed by [generateTableFoot]. *)
Definition totalRow (totalHtml : jsstring) : jsstring :=
  10%N :: str "    <tr class=" ++ quoted "fw-bold" ++ str ">" ++
  10%N :: str "      <td colspan=" ++ quoted "2" ++ str "></td>" ++
  10%N :: str "      <td colspan=" ++ quoted "2" ++ str " class="
    ++ quoted "text-end bg-secondary text-success fs-5" ++ str ">Total:</td>" ++
  10%N :: str "      <td class=" ++ quoted "bg-secondary text-success fs-5" ++ str ">"
    ++ totalHtml ++ str "</td>" ++
  10%N :: str "    </tr>" ++
  10%N :: str "  ".

(** The array [rows] of [generateTableFoot] when it is joined. *)
Definition footerRows (data : Totals.t) : list jsstring :=
  (if (0 <? Totals.subtotal data)%float
   then [placeholder (str "Subtotal") (Totals.subtotalHtml data)] else [])
  ++ (if (0 <? ToNumber (Totals.tax data))%float
      then [placeholder (str "Tax (" ++ ToString (Totals.tax data) ++ str "%)")
              (Totals.taxAmtHtml data)] else [])
  ++ (if (0 <? ToNumber (Totals.discount data))%float
      then [placeholder (str "Discount") (str "-" ++ Totals.discountHtml data)] else [])
  ++ (if (0 <? ToNumber (Totals.otherFee data))%float
      then [placeholder
              (str "Additional Fees (Paypal, Conversion, etc) ("
                 ++ ToString (Totals.otherFee data) ++ str "%)")
              (Totals.otherFeeAmtHtml data)] else [])
  ++ [totalRow (Totals.totalHtml data)].

Definition generateTableFoot (data : Totals.t) : jsstring :=
  str "<tfoot>" ++ join [] (footerRows data) ++ str "</tfoot>".

(** ** lib/replacement.js: the invoice data *)

(** A value of the front matter, as gray-matter returns it for a YAML or
    JSON block: a scalar (undefined for a field that is absent, null, a
    Number, a String), a Boolean, or an object (a sequence, a mapping, a
    timestamp, binary data).  The pipeline tests such an object for
    truth, converts it to a string, or calls the [toLowerCase] it does
    not have; so an object is given by what [ToString] does on it: it
    returns a string, or it throws the TypeError of an object that has
    no usable [toString] and [valueOf], as a mapping with a key
    [toString] has none. *)
Inductive FrontMatterValue :=
  | Scalar (v : JsValue)
  | Boolean (b : bool)
  | Composite (string : result jsstring).

(** ToBoolean: every object is truthy. *)
Definition truthy (v : FrontMatterValue) : bool :=
  match v with
  | Scalar v => ToBoolean v
  | Boolean b => b
  | Composite _ => true
  end.

(** [a || b] with a primitive [b]. *)
Definition orElse (a : FrontMatterValue) (b : JsValue) : FrontMatterValue :=
  if truthy a then a else Scalar b.

(** [data.key] on the front matter, an object of own properties. *)
Definition field (data : gmap jsstring FrontMatterValue) (key : string)
  : FrontMatterValue :=
  default (Scalar JUndefined) (data !! str key).

(** [cleanPrice] (lib/utils.js) on a value of the front matter: a
    Boolean and an object are not empty, and [parseFloat] reads the
    string they convert to, or throws with that conversion. *)
Definition cleanPriceOf (price : FrontMatterValue) : result JsValue :=
  match price with
  | Scalar v => Ok (cleanPrice v)
  | Boolean b => Ok (JNum (parseFloatString (str (if b then "true" else "false"))))
  | Composite string => s <- string ;; Ok (JNum (parseFloatString s))
  end.

(** The value of [organizeInvoiceInfo]. *)
Module InvoiceInfo.
Record t := make {
  bodyStyle : jsstring;
  tableBody : jsstring;
  tableFoot : jsstring;
  totalPrice : jsstring
}.
End InvoiceInfo.

Section Pipeline.
(** [slugify(latinize(key), { lower: true })], as in [parseAndValidateTable]. *)
Variable slugKey : jsstring -> jsstring.

(** [extractInvoiceData(data, content)], from the front matter and the
    value of [parseTable(marked(content))].  A [currency] that is no
    String makes the first [formatPrice] call throw the TypeError of
    [currencyCode.toLowerCase()]; for a table without rows that call is
    in [calculateInvoiceTotals], which [organizeInvoiceInfo], the only
    caller, runs next, so the error is raised here in both cases. *)
Definition extractInvoiceData (data : gmap jsstring FrontMatterValue)
    (jsonTables : option (list (list (list (jsstring * JsValue)))))
  : result Invoice.t :=
  serviceTax <- cleanPriceOf (orElse (field data "serviceTax") (JNum 0)) ;;
  tax <- cleanPriceOf (orElse (field data "tax") (JNum 0)) ;;
  otherFee <- cleanPriceOf (orElse (field data "otherFee") (JNum 0)) ;;
  discount <- cleanPriceOf (orElse (field data "discount") (JNum 0)) ;;
  let currency := orElse (field data "currency") (JStr (str "usd")) in
  tableData <- parseAndValidateTable slugKey jsonTables ;;
  match currency with
  | Scalar (JStr currency) =>
      tables <- calculateUnitTotals tableData currency (cleanPrice serviceTax) ;;
      Ok {| Invoice.tables := tables;
            Invoice.tax := tax;
            Invoice.otherFee := otherFee;
            Invoice.discount := discount;
            Invoice.currency := currency |}
  | _ => Throw (str "currencyCode.toLowerCase is not a function")
  end.

Definition organizeInvoiceInfo (data : gmap jsstring FrontMatterValue)
    (jsonTables : option (list (list (list (jsstring * JsValue)))))
  : result InvoiceInfo.t :=
  invoiceData <- extractInvoiceData data jsonTables ;;
  invoiceTotals <- calculateInvoiceTotals invoiceData ;;
  Ok {| InvoiceInfo.bodyStyle :=
          str "<style>body{margin:0 auto;width:1024px;transform:scale(4);transform-origin:left top;padding:35px}</style>";
        InvoiceInfo.tableBody := generateTableBody (Invoice.tables invoiceData);
        InvoiceInfo.tableFoot := generateTableFoot invoiceTotals;
        InvoiceInfo.totalPrice := Totals.totalHtml invoiceTotals |}.
End Pipeline.

(** * Vocabulary of the properties *)

(** A String value from a Basic Latin literal. *)
Definition J (s : string) : JsValue := JStr (str s).

(** The message of the error [calculatePercentage] throws. *)
Definition arithmeticError : jsstring :=
  str "Both 'value' and 'percent' must be valid numbers.".

(** The cells [validateDataRows] reports: defined and refused by the
    validator. *)
Definition offendingPrice (row : Row.t) : bool :=
  negb (isUndefined (Row.price row)) && negb (validatePrice (Row.price row)).

Definition offendingQty (row : Row.t) : bool :=
  negb (isUndefined (Row.qty row)) && negb (validateQty (Row.qty row)).

Definition offendingCells (row : Row.t) : nat :=
  (if offendingPrice row then 1 else 0) + (if offendingQty row then 1 else 0).






(** The message for the cell of column [label] in the row of 0-based
    position [index]. *)
Definition cellMessage (index : nat) (label : string) : jsstring :=
  str "Object " ++ indexPlusOne index ++ str ": Invalid " ++ str label.

(** The rate [calculateUnitTotals] applies, as the code resolves it: the
    default 1 for an omitted argument; a Number when it is greater than 0,
    +∞ included; for any other value its [parseFloat] when
    [isValidAmount] holds; otherwise 0. *)
Definition resolvedTaxRate (serviceTax : JsValue) : float :=
  match serviceTax with
  | JUndefined => 1%float
  | JNum x => if (0 <? x)%float then x else 0%float
  | v => if isValidAmount v then parseFloat v else 0%float
  end.

(** The rate as the spec words it: [serviceTax] when it is a finite
    number greater than 0, otherwise 0. *)
Definition claimedTaxRate (serviceTax : JsValue) : float :=
  match serviceTax with
  | JNum x => if PrimFloat.is_finite x && (0 <? x)%float then x else 0%float
  | _ => 0%float
  end.

(** The line item [unitTotals] builds when it does not throw. *)
Definition lineItemOf (currency : jsstring) (taxRate : float) (row : Row.t)
  : LineItem.t :=
  let price := cleanPrice (Row.price row) in
  let total := (ToNumber (Row.qty row) * ToNumber price)%float in
  let priceWithTax := (ToNumber price + (ToNumber price * taxRate) / 100)%float in
  let totalWithTax := (ToNumber (Row.qty row) * priceWithTax)%float in
  {| LineItem.item := Row.item row;
     LineItem.price := price;
     LineItem.qty := Row.qty row;
     LineItem.total := total;
     LineItem.priceHtml := formatPrice (Row.price row) currency;
     LineItem.totalHtml := formatPrice (JNum total) currency;
     LineItem.priceWithTax := priceWithTax;
     LineItem.totalWithTax := totalWithTax;
     LineItem.priceHtmlWithTax := formatPrice (JNum priceWithTax) currency;
     LineItem.totalHtmlWithTax := formatPrice (JNum totalWithTax) currency |}.

(** The sum of a list taken from left to right: each element is added
    to the sum of those before it. *)
Definition leftToRightSum (l : list float) : float :=
  foldr (fun x acc => (acc + x)%float) 0%float (rev l).

(** The message of the error for a document without a table. *)
Definition noTableError : jsstring :=
  str "Please provide an estimate table in the markdown content.".

(** A template cut into literal text and [{{name}}] tokens. *)
Inductive segment :=
  | Text (text : jsstring)
  | Token (name : jsstring).

Definition renderSegment (seg : segment) : jsstring :=
  match seg with
  | Text text => text
  | Token name => str "{{" ++ name ++ str "}}"
  end.

(** Literal text opens no token: it has no "{{" and does not end in "{". *)
Fixpoint plainText (text : jsstring) : bool :=
  match text with
  | [] => true
  | c :: rest =>
      negb ((c =? 123)%N && match rest with
                            | [] => true
                            | d :: _ => (d =? 123)%N
                            end)
      && plainText rest
  end.

(** A token's name has no "}" and no line terminator. *)
Definition plainName (name : jsstring) : bool :=
  forallb (fun c => negb (c =? 125)%N && negb (isLineTerminator c)) name.

Definition wellFormed (seg : segment) : bool :=
  match seg with
  | Text text => plainText text
  | Token name => plainName name
  end.

(** What a segment becomes: text stays; a token whose name is a key of
    [data] becomes that key's value, any other token stays as written. *)
Definition substitute (data : gmap jsstring JsValue) (seg : segment) : jsstring :=
  match seg with
  | Text text => text
  | Token name =>
      match data !! name with
      | Some v => ToString v
      | None => renderSegment (Token name)
      end
  end.

(** The entry of the table for a code, by its own keys alone. *)
Definition listedSymbol (code : jsstring) : jsstring :=
  default [] (snd <$> List.find (fun curr => bool_decide (curr.1 = code)) CURRENCIES).

(** The table of [examples/sample.md] with its front matter:
    [serviceTax: 20%], [tax: 15%], [otherFee: 4%], [discount: 30.00],
    [currency: GBP]. *)
Definition sampleRows : list Row.t :=
  [ Row.make (J "WordPress Theme Development") (J "10.00") (J "2");
    Row.make (J "Custom Features Implementation") (J "15.00") (J "3");
    Row.make (J "User Experience Enhancement") (J "20.00") (J "2");
    Row.make (J "Quality Assurance and Testing") (J "12.00") (J "4");
    Row.make (J "Project Management and Communication") (J "8.00") (J "3");
    Row.make (J "Client Training and Documentation") (J "25.00") (J "1") ].

(** The message of the error for a missing column. *)
Definition missingColumnError (column : jsstring) : jsstring :=
  str "Missing expected column '" ++ column ++ str "'".

(** The first expected column a raw row lacks. *)
Definition firstMissing (row : gmap jsstring JsValue) : option jsstring :=
  List.find (fun column => bool_decide (row !! column = None))
    [str "item"; str "price"; str "qty"].

(** A raw row and the filtered row made of its three expected columns. *)
Definition filteredFrom (row : gmap jsstring JsValue) (filtered : Row.t) : Prop :=
  row !! str "item" = Some (Row.item filtered)
  /\ row !! str "price" = Some (Row.price filtered)
  /\ row !! str "qty" = Some (Row.qty filtered).

(** A segment after one pass: a replaced token has become text. *)
Definition passed (data : gmap jsstring JsValue) (seg : segment) : segment :=
  match seg with
  | Text text => Text text
  | Token name =>
      match data !! name with
      | Some v => Text (ToString v)
      | None => Token name
      end
  end.

(** The test of the [filter] in [parseDescription] and [parseNotes]. *)
Definition nonBlank (line : jsstring) : bool := negb (bool_decide (trim line = [])).

(** What [parseDescription] makes of its non-blank lines. *)
Definition descriptionMarkup (lines : list jsstring) : jsstring :=
  match lines with
  | [] => []
  | _ =>
      str "<div class=" ++ quoted "my-4" ++ str ">"
        ++ mjoin ((fun line => str "<p>" ++ line ++ str "</p>") <$> lines)
        ++ str "</div>"
  end.

(** What [parseNotes] makes of its non-blank lines. *)
Definition notesMarkup (lines : list jsstring) : jsstring :=
  match lines with
  | [] => []
  | _ =>
      str "<h6 class=" ++ quoted "fw-bold" ++ str ">Notes:</h6><ol>"
        ++ mjoin ((fun line => str "<li>" ++ line ++ str "</li>") <$> lines)
        ++ str "</ol>"
  end.

(** The fields [extractInvoiceData] converts with [cleanPrice], in the
    order it converts them. *)
Definition financialKeys : list string :=
  ["serviceTax"; "tax"; "otherFee"; "discount"]%string.

(** A value of the front matter whose conversion to a string does not
    throw: any value but an object without a usable [toString]. *)
Definition convertible (v : FrontMatterValue) : bool :=
  match v with
  | Composite (Throw _) => false
  | _ => true
  end.

(** The Number a convertible field reads as: [parseFloat] of the field,
    or of 0 when the field is missing or falsy. *)
Definition parsedField (data : gmap jsstring FrontMatterValue) (key : string)
  : float :=
  match orElse (field data key) (JNum 0) with
  | Scalar v => parseFloat v
  | Boolean b => parseFloatString (str (if b then "true" else "false"))
  | Composite (Ok s) => parseFloatString s
  | Composite (Throw _) => nan
  end.

(** The amount the pipeline takes for a financial field of the front
    matter: the Number the field reads as when that is greater than 0,
    and 0 when the field is missing, falsy, not a number or not positive. *)
Definition frontMatterAmount (data : gmap jsstring FrontMatterValue) (key : string)
  : float :=
  let x := parsedField data key in
  if (0 <? x)%float then x else 0%float.

(** The totals of [calculateInvoiceTotals] from a subtotal and the three
    resolved amounts. *)
Definition totalsOf (currency : jsstring) (subtotal tax otherFee discount : float)
  : Totals.t :=
  let taxAmt := ((subtotal * tax) / 100)%float in
  let otherFeeAmt := ((subtotal * otherFee) / 100)%float in
  let total := (subtotal + taxAmt + otherFeeAmt - discount)%float in
  {| Totals.subtotal := subtotal;
     Totals.tax := JNum tax;
     Totals.taxAmt := taxAmt;
     Totals.discount := JNum discount;
     Totals.otherFee := JNum otherFee;
     Totals.otherFeeAmt := otherFeeAmt;
     Totals.total := total;
     Totals.subtotalHtml := formatPrice (JNum subtotal) currency;
     Totals.taxAmtHtml := formatPrice (JNum taxAmt) currency;
     Totals.otherFeeAmtHtml := formatPrice (JNum otherFeeAmt) currency;
     Totals.discountHtml := formatPrice (JNum discount) currency;
     Totals.totalHtml := formatPrice (JNum (Math_round total)) currency |}.

(** The line items of the pipeline: the service tax of the front matter
    applied to each row. *)
Definition invoiceItems (data : gmap jsstring FrontMatterValue) (currency : jsstring)
    (rows : list Row.t) : list LineItem.t :=
  lineItemOf currency (frontMatterAmount data "serviceTax") <$> rows.

(** The totals of the pipeline for these line items. *)
Definition invoiceTotals (data : gmap jsstring FrontMatterValue) (currency : jsstring)
    (items : list LineItem.t) : Totals.t :=
  totalsOf currency (leftToRightSum (LineItem.totalWithTax <$> items))
    (frontMatterAmount data "tax") (frontMatterAmount data "otherFee")
    (frontMatterAmount data "discount").

(** The message of the TypeError for a currency that is no String. *)
Definition currencyTypeError : jsstring :=
  str "currencyCode.toLowerCase is not a function".

(** * Properties *)

(** ** Comparisons of Numbers *)

Lemma SFltb_zero_inv (f : spec_float) :
  SFltb (S754_zero false) f = true ->
  SFeqb f (S754_zero false) = false /\ SFeqb f f = true.
Proof.
  destruct f as [[] | [] | | [] m e]; cbn; try discriminate; auto.
  intros _. split; [reflexivity |].
  rewrite Z.compare_refl. change (PosDef.Pos.compare_cont Eq m m) with (m ?= m)%positive.
  rewrite Pos.compare_refl. reflexivity.
Qed.

Lemma positive_not_zero (x : float) :
  (0 <? x)%float = true -> PrimFloat.is_zero x = false /\ isNaN x = false.
Proof.
  unfold PrimFloat.is_zero, isNaN, PrimFloat.is_nan.
  rewrite FloatAxioms.ltb_spec, !FloatAxioms.eqb_spec.
  change (Prim2SF 0) with (S754_zero false). change (Prim2SF PrimFloat.zero) with (S754_zero false).
  intros H. destruct (SFltb_zero_inv _ H) as [-> ->]. auto.
Qed.

Lemma nan_not_positive (x : float) : isNaN x = true -> (0 <? x)%float = false.
Proof.
  intros H. destruct (0 <? x)%float eqn:E; [| reflexivity].
  apply positive_not_zero in E as [_ E]. congruence.
Qed.





(** Two floats that a boolean test tells apart are different. *)
Lemma float_neq (f : float -> bool) (x y : float) : f x <> f y -> x <> y.
Proof. intros H ->. apply H. reflexivity. Qed.

(** ** Decimal digits *)




Lemma digitsOfZ_nonempty (z : Z) : digitsOfZ z <> [].
Proof.
  unfold digitsOfZ. destruct (Z.to_N z) as [| p]; [discriminate |].
  cbn [N.to_uint]. pose proof (DecimalPos.Unsigned.to_uint_nonnil p) as H.
  destruct (Pos.to_uint p); [contradiction | discriminate ..].
Qed.

(** ** toFixed and formatPrice *)

Lemma formatShortest_nonempty (n k : Z) (ds : jsstring) :
  ds <> [] -> formatShortest n k ds <> [].
Proof.
  intros Hds. unfold formatShortest.
  assert (Happ : forall a b : jsstring, b <> [] -> a ++ b <> []).
  { intros a b Hb H. apply app_eq_nil in H as [_ H]. contradiction. }
  repeat match goal with
         | |- context [if ?b then _ else _] => destruct b
         end;
    try (apply Happ; discriminate);
    destruct ds; try contradiction; discriminate.
Qed.

Lemma NumberToString_nonempty (x : float) : NumberToString x <> [].
Proof.
  unfold NumberToString.
  destruct (PrimFloat.is_nan x); [discriminate |].
  destruct (PrimFloat.is_zero x); [discriminate |].
  intros H. apply app_eq_nil in H as [_ H]. revert H.
  destruct (F2Q (abs x)) as [v |]; [| discriminate].
  destruct (shortestDigits (abs x) v) as [[n k] s].
  apply formatShortest_nonempty, digitsOfZ_nonempty.
Qed.

(** A finite Number below 10^21 in magnitude is shown with a whole part
    and exactly two decimals. *)
Lemma toFixed2_two_decimals (x : float) (q : Q) :
  F2Q x = Some q -> Qle_bool (Qpower 10 21) (Qabs q) = false ->
  exists whole decimals,
    toFixed2 x
    = str (if Qle_bool 0 q then "" else "-") ++ whole ++ str "." ++ decimals
    /\ whole <> [] /\ length decimals = 2%nat.
Proof.
  intros Hq Hsmall. unfold toFixed2. rewrite Hq, Hsmall.
  set (m := zeros _ ++ digitsOfZ _).
  assert (Hm : (3 <= length m)%nat).
  { unfold m, zeros. rewrite length_app, length_replicate. lia. }
  exists (take (length m - 2) m), (drop (length m - 2) m).
  split; [reflexivity |]. split.
  - intros H. apply (f_equal length) in H. rewrite length_take in H. cbn in H. lia.
  - rewrite length_drop. lia.
Qed.

Lemma toFixed2_nonempty (x : float) : toFixed2 x <> [].
Proof.
  unfold toFixed2. destruct (F2Q x) as [q |]; [| apply NumberToString_nonempty].
  intros H. apply app_eq_nil in H as [_ H]. revert H.
  destruct (Qle_bool _ _); [apply NumberToString_nonempty |].
  intros H. apply app_eq_nil in H as [_ H]. discriminate H.
Qed.

(** When the symbol found is a string, [formatPrice] is that string
    followed by the fixed value; an empty symbol leaves the value alone. *)
Lemma formatPrice_symbol (value : JsValue) (currency symbol : jsstring) :
  getCurrencySymbol currency = JStr symbol ->
  formatPrice value currency = symbol ++ toFixed2 (parseFloat value).
Proof.
  intros Hs. unfold formatPrice. rewrite Hs.
  pose proof (toFixed2_nonempty (parseFloat value)) as Hne.
  destruct symbol as [| c symbol];
    destruct (toFixed2 (parseFloat value)) as [| d fixed]; try contradiction;
    reflexivity.
Qed.

(** Whatever the symbol found, [formatPrice] ends with the fixed value. *)
Lemma formatPrice_fixed (value : JsValue) (currency : jsstring) :
  exists symbol, formatPrice value currency = symbol ++ toFixed2 (parseFloat value).
Proof.
  unfold formatPrice.
  set (sym := getCurrencySymbol currency). set (fixed := toFixed2 _).
  assert (Hf : ToBoolean (JStr fixed) = true).
  { cbn. rewrite bool_decide_eq_false_2; [reflexivity | apply toFixed2_nonempty]. }
  rewrite !filter_cons, filter_nil.
  destruct (decide (ToBoolean (JStr fixed) = true)); [| contradiction].
  destruct (decide (ToBoolean sym = true)).
  - exists (match sym with JUndefined | JNull => [] | _ => ToString sym end).
    reflexivity.
  - exists []. reflexivity.
Qed.

(** A finite amount below 10^21 in magnitude is displayed with exactly
    two decimals. *)
Lemma formatPrice_two_decimals (value : JsValue) (currency : jsstring) (q : Q) :
  F2Q (parseFloat value) = Some q -> Qle_bool (Qpower 10 21) (Qabs q) = false ->
  exists front decimals,
    formatPrice value currency = front ++ str "." ++ decimals
    /\ length decimals = 2%nat.
Proof.
  intros Hq Hsmall.
  destruct (formatPrice_fixed value currency) as [symbol ->].
  destruct (toFixed2_two_decimals _ _ Hq Hsmall) as (whole & decimals & -> & _ & Hd).
  exists (symbol ++ str (if Qle_bool 0 q then "" else "-") ++ whole), decimals.
  split; [| exact Hd]. rewrite <- !app_assoc. reflexivity.
Qed.

Lemma formatPrice_number_two_decimals (amount : float) (currency : jsstring) (q : Q) :
  F2Q amount = Some q -> Qle_bool (Qpower 10 21) (Qabs q) = false ->
  exists front decimals,
    formatPrice (JNum amount) currency = front ++ str "." ++ decimals
    /\ length decimals = 2%nat.
Proof.
  intros Hq Hsmall. destruct (PrimFloat.is_zero amount) eqn:Hz.
  - apply (formatPrice_two_decimals _ _ 0%Q); [| reflexivity].
    unfold parseFloat. rewrite Hz. reflexivity.
  - apply (formatPrice_two_decimals _ _ q); [| exact Hsmall].
    unfold parseFloat. rewrite Hz. exact Hq.
Qed.


Lemma find_own_symbol (table : list (jsstring * jsstring)) (code : jsstring) :
  Forall (fun curr => curr.2 <> []) table ->
  match List.find (fun curr =>
          ToBoolean (if bool_decide (curr.1 = code) then JStr curr.2 else JUndefined))
          table with
  | Some curr => if bool_decide (curr.1 = code) then JStr curr.2 else JUndefined
  | None => JStr []
  end
  = JStr (default [] (snd <$> List.find (fun curr => bool_decide (curr.1 = code)) table)).
Proof.
  induction 1 as [| curr table Hsym _ IH]; [reflexivity |].
  cbn [List.find]. destruct (bool_decide (curr.1 = code)) eqn:E; [| exact IH].
  cbn [ToBoolean]. rewrite bool_decide_eq_false_2 by exact Hsym.
  cbn [negb]. rewrite E. reflexivity.
Qed.

(** A code whose lower case is no member of [Object.prototype] gets the
    symbol listed for it, or the empty string. *)
Lemma getCurrencySymbol_listed (currencyCode : jsstring) :
  objectPrototypeGet (toLowerCase currencyCode) = JUndefined ->
  getCurrencySymbol currencyCode = JStr (listedSymbol (toLowerCase currencyCode)).
Proof.
  intros Hp. unfold getCurrencySymbol, listedSymbol, currencyGet. rewrite Hp.
  apply find_own_symbol. unfold CURRENCIES. repeat constructor; discriminate.
Qed.

Lemma formatPrice_listed (value : JsValue) (currency : jsstring) :
  objectPrototypeGet (toLowerCase currency) = JUndefined ->
  formatPrice value currency
  = listedSymbol (toLowerCase currency) ++ toFixed2 (parseFloat value).
Proof. intros H. apply formatPrice_symbol, getCurrencySymbol_listed, H. Qed.

(** The two examples of the specification. *)
Lemma formatPrice_examples :
  formatPrice (JNum 19.999) (str "gbp") = 163%N :: str "20.00" /\
  formatPrice (JNum 5) (str "xyz") = str "5.00".
Proof. split; vm_compute; reflexivity. Qed.

(** C9 fails on the code: a currency code that names a member of
    [Object.prototype] is not in the table, yet [getCurrencySymbol] finds
    that member on the first entry and [formatPrice] prints it before the
    value. *)
Theorem formatPrice_inherited_member :
  listedSymbol (toLowerCase (str "constructor")) = [] /\
  getCurrencySymbol (str "constructor") = JObject (BuiltinFunction (str "Object")) /\
  formatPrice (JNum 5) (str "constructor")
  = str "function Object() { [native code] }5.00".
Proof. repeat split; vm_compute; reflexivity. Qed.

(** ** Resolved amounts *)

Lemma isValidAmount_number (x : float) :
  isValidAmount (JNum x) = (0 <? x)%float.
Proof.
  unfold isValidAmount, cleanPrice, isEmpty, Number_isNaN, parseFloat, ToNumber.
  destruct (0 <? x)%float eqn:E.
  - destruct (positive_not_zero _ E) as [-> ->]. reflexivity.
  - apply andb_false_r.
Qed.

Lemma calculateAmount_number (x : float) :
  calculateAmount (JNum x) = JNum (if (0 <? x)%float then x else 0%float).
Proof.
  unfold calculateAmount. rewrite isValidAmount_number.
  destruct (0 <? x)%float eqn:E; [| reflexivity].
  unfold cleanPrice, isEmpty, parseFloat.
  destruct (positive_not_zero _ E) as [-> _]. reflexivity.
Qed.

(** A valid amount is not empty: [cleanPrice] gives its [parseFloat]. *)
Lemma isValidAmount_not_empty (v : JsValue) :
  isValidAmount v = true -> isEmpty v = false.
Proof.
  destruct v as [| | x | [| c s] | o]; try reflexivity; vm_compute; discriminate.
Qed.

(** What [calculateAmount] gives is a Number, and never NaN. *)
Lemma calculateAmount_is_number (v : JsValue) :
  exists x, calculateAmount v = JNum x /\ isNaN x = false.
Proof.
  unfold calculateAmount. destruct (isValidAmount v) eqn:E.
  - pose proof (isValidAmount_not_empty _ E) as Hne.
    unfold isValidAmount in E. unfold cleanPrice in *. rewrite Hne in *.
    exists (parseFloat v). split; [reflexivity |].
    apply andb_true_iff in E as [E _]. apply andb_true_iff in E as [_ E].
    apply negb_true_iff in E. exact E.
  - exists 0%float. split; reflexivity.
Qed.

Lemma calculateAmount_resolved (v : JsValue) :
  calculateAmount v = JNum (if isValidAmount v then parseFloat v else 0%float)
  /\ isNaN (if isValidAmount v then parseFloat v else 0%float) = false.
Proof.
  destruct (calculateAmount_is_number v) as (x & Hx & Hn).
  unfold calculateAmount in *. destruct (isValidAmount v) eqn:E; [| auto].
  unfold cleanPrice in *. rewrite (isValidAmount_not_empty _ E) in *.
  injection Hx as ->. auto.
Qed.

(** ** calculatePercentage *)

(** C5: [calculatePercentage(value, percent)] fails with the arithmetic
    error when [value] or [percent] is NaN, and otherwise returns
    [(value * percent) / 100]. *)
Lemma calculatePercentage_numbers (value percent : float) :
  isNaN value = false -> isNaN percent = false ->
  calculatePercentage (JNum value) (JNum percent) = Ok ((value * percent) / 100)%float.
Proof. intros Hv Hp. unfold calculatePercentage. cbn. rewrite Hv, Hp. reflexivity. Qed.

Lemma calculatePercentage_nan (value percent : JsValue) :
  Number_isNaN value = true \/ Number_isNaN percent = true ->
  calculatePercentage value percent = Throw arithmeticError.
Proof.
  intros H. unfold calculatePercentage.
  replace (Number_isNaN value || Number_isNaN percent) with true; [reflexivity |].
  symmetry. apply orb_true_iff. exact H.
Qed.

(** ** calculateInvoiceTotals *)

Lemma leftToRightSum_snoc (l : list float) (x : float) :
  leftToRightSum (l ++ [x]) = (leftToRightSum l + x)%float.
Proof. unfold leftToRightSum. rewrite rev_unit. reflexivity. Qed.

Lemma reduce_leftToRightSum (tables : list LineItem.t) :
  fold_left (fun acc row => (acc + LineItem.totalWithTax row)%float) tables 0%float
  = leftToRightSum (LineItem.totalWithTax <$> tables).
Proof.
  induction tables as [| row tables IH] using rev_ind; [reflexivity |].
  rewrite fold_left_app, fmap_app. cbn [fold_left fmap list_fmap].
  rewrite leftToRightSum_snoc, IH. reflexivity.
Qed.

(** C1, as the code has it: with [subtotal] the left-to-right sum of
    [totalWithTax] and [tax], [otherFee], [discount] the resolved amounts,
    [calculateInvoiceTotals] fails with the arithmetic error when
    [subtotal] is NaN and otherwise returns [subtotal],
    [taxAmt = subtotal * tax / 100], [otherFeeAmt = subtotal * otherFee / 100]
    and [total = subtotal + taxAmt + otherFeeAmt - discount]; [totalHtml]
    is [formatPrice] of [Math.round(total)], every other displayed amount
    is [formatPrice] of the amount itself, which shows a finite amount
    below 10^21 in magnitude with exactly two decimals. *)
Theorem calculateInvoiceTotals_totals (data : Invoice.t) :
  (exists tax otherFee discount : float,
     calculateAmount (Invoice.tax data) = JNum tax /\
     calculateAmount (Invoice.otherFee data) = JNum otherFee /\
     calculateAmount (Invoice.discount data) = JNum discount /\
     let subtotal := leftToRightSum (LineItem.totalWithTax <$> Invoice.tables data) in
     let taxAmt := ((subtotal * tax) / 100)%float in
     let otherFeeAmt := ((subtotal * otherFee) / 100)%float in
     let total := (subtotal + taxAmt + otherFeeAmt - discount)%float in
     let shown amount := formatPrice (JNum amount) (Invoice.currency data) in
     calculateInvoiceTotals data =
       if isNaN subtotal then Throw arithmeticError
       else Ok {| Totals.subtotal := subtotal;
                  Totals.tax := JNum tax;
                  Totals.taxAmt := taxAmt;
                  Totals.discount := JNum discount;
                  Totals.otherFee := JNum otherFee;
                  Totals.otherFeeAmt := otherFeeAmt;
                  Totals.total := total;
                  Totals.subtotalHtml := shown subtotal;
                  Totals.taxAmtHtml := shown taxAmt;
                  Totals.otherFeeAmtHtml := shown otherFeeAmt;
                  Totals.discountHtml := shown discount;
                  Totals.totalHtml := shown (Math_round total) |}) /\
  (forall (amount : float) (q : Q),
     F2Q amount = Some q -> Qle_bool (Qpower 10 21) (Qabs q) = false ->
     exists front decimals,
       formatPrice (JNum amount) (Invoice.currency data)
       = front ++ str "." ++ decimals
       /\ length decimals = 2%nat).
Proof.
  split; [| intros amount q; apply formatPrice_number_two_decimals].
  destruct (calculateAmount_is_number (Invoice.tax data)) as (tax & Ht & Hnt).
  destruct (calculateAmount_is_number (Invoice.otherFee data)) as (fee & Hf & Hnf).
  destruct (calculateAmount_is_number (Invoice.discount data)) as (dis & Hd & Hnd).
  exists tax, fee, dis. repeat split; try assumption.
  cbv zeta. unfold calculateInvoiceTotals.
  rewrite Ht, Hf, Hd, reduce_leftToRightSum.
  set (subtotal := leftToRightSum _).
  destruct (isNaN subtotal) eqn:Hs.
  - rewrite calculatePercentage_nan; [reflexivity | left; exact Hs].
  - rewrite !calculatePercentage_numbers by assumption. reflexivity.
Qed.

(** C1 as the spec states it fails on a validated table: a quantity that
    [parseInt] accepts and [qty * priceWithTax] turns into NaN makes the
    subtotal NaN, and [calculateInvoiceTotals] throws. *)
Lemma calculateInvoiceTotals_throws :
  let rows := [Row.make (J "A") (J "10") (J "2 units")] in
  validateDataRows rows = Ok tt /\
  exists tables,
    calculateUnitTotals rows (str "usd") (JNum 0) = Ok tables /\
    ~ exists totals,
        calculateInvoiceTotals
          (Invoice.make tables (JNum 0) (JNum 0) (JNum 0) (str "usd")) = Ok totals.
Proof.
  split; [vm_compute; reflexivity |].
  eexists. split; [vm_compute; reflexivity |].
  intros [totals H]. vm_compute in H. discriminate H.
Qed.

(** C5: [calculatePercentage(value, percent)] fails with the arithmetic
    error when [value] or [percent] is NaN, and otherwise returns
    [(value * percent) / 100]. *)
Theorem calculatePercentage_spec (value percent : JsValue) :
  ((Number_isNaN value = true \/ Number_isNaN percent = true) /\
   calculatePercentage value percent = Throw arithmeticError)
  \/
  (Number_isNaN value = false /\ Number_isNaN percent = false /\
   calculatePercentage value percent
   = Ok ((ToNumber value * ToNumber percent) / 100)%float).
Proof.
  destruct (Number_isNaN value) eqn:Hv; [left | destruct (Number_isNaN percent) eqn:Hp; [left | right]].
  - split; [auto |]. apply calculatePercentage_nan. rewrite Hv. auto.
  - split; [auto |]. apply calculatePercentage_nan. auto.
  - repeat split. unfold calculatePercentage. rewrite Hv, Hp. reflexivity.
Qed.


(** ** validateDataRows *)

Lemma rowErrors_offending (index : nat) (row : Row.t) :
  rowErrors index row =
    (if offendingPrice row then [cellMessage index "Price"] else [])
    ++ (if offendingQty row then [cellMessage index "Qty"] else []).
Proof. reflexivity. Qed.

Lemma elem_of_rowErrors (index : nat) (row : Row.t) (msg : jsstring) :
  msg ∈ rowErrors index row <->
  (offendingPrice row = true /\ msg = cellMessage index "Price")
  \/ (offendingQty row = true /\ msg = cellMessage index "Qty").
Proof.
  rewrite rowErrors_offending, elem_of_app.
  destruct (offendingPrice row), (offendingQty row);
    rewrite ?list_elem_of_singleton, ?elem_of_nil;
    intuition discriminate.
Qed.

Lemma length_rowErrors (index : nat) (row : Row.t) :
  length (rowErrors index row) = offendingCells row.
Proof.
  rewrite rowErrors_offending. unfold offendingCells.
  destruct (offendingPrice row), (offendingQty row); reflexivity.
Qed.

Lemma elem_of_validationErrors (data : list Row.t) (msg : jsstring) :
  msg ∈ validationErrors data <->
  exists index row, data !! index = Some row /\
    ((offendingPrice row = true /\ msg = cellMessage index "Price")
     \/ (offendingQty row = true /\ msg = cellMessage index "Qty")).
Proof.
  unfold validationErrors. rewrite list_elem_of_join. split.
  - intros (l & Hmsg & Hl). apply elem_of_lookup_imap in Hl as (i & row & -> & Hrow).
    exists i, row. split; [assumption |]. apply elem_of_rowErrors. assumption.
  - intros (i & row & Hrow & H). exists (rowErrors i row). split.
    + apply elem_of_rowErrors. assumption.
    + apply elem_of_lookup_imap. eauto.
Qed.

Lemma sum_lengths_imap {A B} (f : nat -> A -> list B) (g : A -> nat) (l : list A) :
  (forall i a, length (f i a) = g a) ->
  sum_list (length <$> imap f l) = sum_list_with g l.
Proof.
  revert f. induction l as [| a l IH]; intros f Hf; [reflexivity |].
  cbn. rewrite Hf. f_equal. apply IH. intros i b. apply Hf.
Qed.

Lemma length_validationErrors (data : list Row.t) :
  length (validationErrors data) = sum_list_with offendingCells data.
Proof.
  unfold validationErrors. rewrite length_join.
  apply sum_lengths_imap, length_rowErrors.
Qed.

Lemma sum_list_with_zero {A} (g : A -> nat) (l : list A) :
  sum_list_with g l = 0%nat <-> Forall (fun a => g a = 0%nat) l.
Proof.
  induction l as [| a l IH]; cbn.
  - split; [constructor | reflexivity].
  - rewrite Forall_cons, <- IH. lia.
Qed.

Lemma offendingCells_zero (row : Row.t) :
  offendingCells row = 0%nat <-> offendingPrice row = false /\ offendingQty row = false.
Proof.
  unfold offendingCells. destruct (offendingPrice row), (offendingQty row); cbn; intuition lia || discriminate.
Qed.

Lemma validationErrors_nil (data : list Row.t) :
  validationErrors data = [] <->
  Forall (fun row => offendingPrice row = false /\ offendingQty row = false) data.
Proof.
  rewrite <- length_zero_iff_nil, length_validationErrors, sum_list_with_zero.
  apply Forall_proper; [| reflexivity]. intros row. apply offendingCells_zero.
Qed.

Lemma validateDataRows_ok (data : list Row.t) :
  validateDataRows data = Ok tt <->
  Forall (fun row => offendingPrice row = false /\ offendingQty row = false) data.
Proof.
  rewrite <- validationErrors_nil. unfold validateDataRows.
  destruct (validationErrors data); split; congruence.
Qed.







(** ** validatePrice and validateQty *)

Lemma F2Q_not_nan (x : float) (q : Q) : F2Q x = Some q -> isNaN x = false.
Proof.
  unfold F2Q, Prim2SF, isNaN. destruct (PrimFloat.is_nan x); [discriminate | reflexivity].
Qed.

Lemma integral_iff (q : Q) :
  Qeq_bool q (inject_Z (Qfloor q)) = true <-> exists z : Z, (q == inject_Z z)%Q.
Proof.
  rewrite Qeq_bool_iff. split.
  - intros H. exists (Qfloor q). exact H.
  - intros [z Hz]. rewrite Hz at 2. rewrite Qfloor_Z. exact Hz.
Qed.

Lemma validatePrice_iff (value : JsValue) :
  validatePrice value = true <->
  isEmpty value = true \/ isNaN (parseFloat value) = false.
Proof.
  unfold validatePrice, cleanPrice. destruct (isEmpty value); cbn.
  - tauto.
  - rewrite negb_true_iff. intuition discriminate.
Qed.

Lemma validateQty_iff (value : JsValue) :
  validateQty value = true <->
  isEmpty value = false /\
  exists (q : Q) (z : Z), F2Q (parseInt value) = Some q /\ (q == inject_Z z)%Q.
Proof.
  unfold validateQty, cleanNumber. destruct (isEmpty value); cbn.
  - intuition discriminate.
  - unfold isIntegralNumber. split.
    + intros [_ H]%andb_true_iff. split; [reflexivity |].
      destruct (F2Q (parseInt value)) as [q |]; [| discriminate].
      apply integral_iff in H as [z Hz]. eauto.
    + intros [_ (q & z & Hq & Hz)]. rewrite (F2Q_not_nan _ _ Hq), Hq. cbn.
      apply integral_iff. eauto.
Qed.

(** C3, as the code has it: a price cell is accepted exactly when it is
    empty or [parseFloat] of it is not NaN (an infinity is accepted); a
    qty cell is accepted exactly when it is not empty and [parseInt] of it
    is a finite integer; [validateDataRows] succeeds exactly when every
    cell that is not undefined is accepted. *)
Theorem validation_accepts :
  (forall value, validatePrice value = true <->
     isEmpty value = true \/ isNaN (parseFloat value) = false) /\
  (forall value, validateQty value = true <->
     isEmpty value = false /\
     exists (q : Q) (z : Z), F2Q (parseInt value) = Some q /\ (q == inject_Z z)%Q) /\
  (forall data, validateDataRows data = Ok tt <->
     Forall (fun row =>
       (Row.price row = JUndefined \/ validatePrice (Row.price row) = true) /\
       (Row.qty row = JUndefined \/ validateQty (Row.qty row) = true)) data).
Proof.
  split; [exact validatePrice_iff |]. split; [exact validateQty_iff |].
  intros data. rewrite validateDataRows_ok. apply Forall_proper; [| reflexivity].
  intros row. unfold offendingPrice, offendingQty.
  destruct (Row.price row), (Row.qty row); cbn;
    rewrite ?negb_false_iff; intuition (discriminate || auto).
Qed.

(** C3 as the spec states it fails: a price cell that reads "Infinity"
    is accepted and is not a finite number, and an empty price cell is
    accepted and is no number at all. *)
Lemma infinite_price_accepted :
  validateDataRows [Row.make (J "A") (J "Infinity") (J "1")] = Ok tt /\
  PrimFloat.is_finite (parseFloat (J "Infinity")) = false /\
  validateDataRows [Row.make (J "A") (J "") (J "1")] = Ok tt /\
  cleanPrice (J "") = JNull.
Proof. repeat split; vm_compute; reflexivity. Qed.

(** ** calculateUnitTotals *)

(** The tax rate of [unitTotals] is a Number, never NaN, whose value is
    [resolvedTaxRate]. *)
Lemma taxRate_resolved (serviceTax : JsValue) :
  let given := match serviceTax with JUndefined => JNum 1 | v => v end in
  (if isValidAmount given then cleanPrice given else JNum 0)
  = JNum (resolvedTaxRate serviceTax)
  /\ isNaN (resolvedTaxRate serviceTax) = false.
Proof.
  cbv zeta. pose proof calculateAmount_resolved as Hgen. unfold calculateAmount in Hgen.
  destruct serviceTax as [| | x | s | o]; try apply Hgen.
  cbn [resolvedTaxRate]. destruct (Hgen (JNum x)) as [H1 H2].
  rewrite isValidAmount_number in *.
  destruct (0 <? x)%float eqn:E; [| auto].
  unfold parseFloat in *. destruct (positive_not_zero _ E) as [Hz _].
  rewrite Hz in *. auto.
Qed.

Lemma unitTotals_lineItem (currency : jsstring) (serviceTax : JsValue) (row : Row.t) :
  let given := match serviceTax with JUndefined => JNum 1 | v => v end in
  Number_isNaN (cleanPrice (Row.price row)) = false ->
  unitTotals currency given row
  = Ok (lineItemOf currency (resolvedTaxRate serviceTax) row).
Proof.
  cbv zeta. intros Hp. destruct (taxRate_resolved serviceTax) as [Hrate Hn].
  cbv zeta in Hrate. unfold unitTotals. rewrite Hrate.
  unfold calculatePercentage. rewrite Hp. cbn [Number_isNaN]. rewrite Hn.
  reflexivity.
Qed.

Lemma unitTotals_throws (currency : jsstring) (given : JsValue) (row : Row.t) :
  Number_isNaN (cleanPrice (Row.price row)) = true ->
  unitTotals currency given row = Throw arithmeticError.
Proof.
  intros Hp. unfold unitTotals, calculatePercentage. rewrite Hp. reflexivity.
Qed.

Lemma mapResult_ok {A B} (f : A -> result B) (g : A -> B) (l : list A) :
  Forall (fun a => f a = Ok (g a)) l -> mapResult f l = Ok (g <$> l).
Proof.
  induction 1 as [| a l Ha _ IH]; [reflexivity |].
  cbn. rewrite Ha. cbn. rewrite IH. reflexivity.
Qed.

(** [calculateUnitTotals] on rows whose prices do not parse to NaN. *)
Lemma calculateUnitTotals_ok (data : list Row.t) (currency : jsstring) (serviceTax : JsValue) :
  Forall (fun row => Number_isNaN (cleanPrice (Row.price row)) = false) data ->
  calculateUnitTotals data currency serviceTax
  = Ok (lineItemOf currency (resolvedTaxRate serviceTax) <$> data).
Proof.
  intros H. unfold calculateUnitTotals. apply mapResult_ok.
  eapply Forall_impl; [exact H |]. intros row Hrow.
  apply (unitTotals_lineItem currency serviceTax row Hrow).
Qed.

(** Validated rows have prices that do not parse to NaN. *)
Lemma validated_prices (data : list Row.t) :
  validateDataRows data = Ok tt ->
  Forall (fun row => Number_isNaN (cleanPrice (Row.price row)) = false) data.
Proof.
  intros H. apply validateDataRows_ok in H.
  eapply Forall_impl; [exact H |]. intros row [Hp _].
  unfold offendingPrice, validatePrice in Hp.
  destruct (Row.price row); try reflexivity;
    cbn in Hp; apply negb_false_iff in Hp; apply negb_true_iff in Hp; exact Hp.
Qed.

(** C2, as the code has it: on validated rows [calculateUnitTotals]
    returns, row for row, [price = cleanPrice(row.price)],
    [priceWithTax = price + price * taxRate / 100] and
    [totalWithTax = qty * priceWithTax], where [taxRate] is 1 for an
    omitted [serviceTax], [serviceTax] itself for a Number greater than 0
    (+∞ included) and 0 for any other Number. *)
Theorem calculateUnitTotals_amounts
    (data : list Row.t) (currency : jsstring) (serviceTax : JsValue) :
  validateDataRows data = Ok tt ->
  exists items,
    calculateUnitTotals data currency serviceTax = Ok items /\
    Forall2 (fun row item =>
      let price := ToNumber (cleanPrice (Row.price row)) in
      let taxRate := resolvedTaxRate serviceTax in
      LineItem.price item = cleanPrice (Row.price row) /\
      LineItem.priceWithTax item = (price + (price * taxRate) / 100)%float /\
      LineItem.totalWithTax item
      = (ToNumber (Row.qty row) * LineItem.priceWithTax item)%float) data items.
Proof.
  intros H. eexists. split.
  - apply calculateUnitTotals_ok, validated_prices, H.
  - apply Forall2_fmap_r, Forall_Forall2_diag, Forall_forall.
    intros row _. cbn. auto.
Qed.

Lemma calculateUnitTotals_amounts_witness :
  exists items,
    calculateUnitTotals [Row.make (J "A") (J "10.00") (J "2")] (str "usd") (JNum 20)
    = Ok items /\
    Forall2 (fun row item =>
      let price := ToNumber (cleanPrice (Row.price row)) in
      let taxRate := resolvedTaxRate (JNum 20) in
      LineItem.price item = cleanPrice (Row.price row) /\
      LineItem.priceWithTax item = (price + (price * taxRate) / 100)%float /\
      LineItem.totalWithTax item
      = (ToNumber (Row.qty row) * LineItem.priceWithTax item)%float)
      [Row.make (J "A") (J "10.00") (J "2")] items.
Proof.
  apply (calculateUnitTotals_amounts
           [Row.make (J "A") (J "10.00") (J "2")] (str "usd") (JNum 20)).
  vm_compute. reflexivity.
Defined.

(** C2 as the spec states it fails: with [serviceTax] +∞ the rate is +∞,
    not 0; with [serviceTax] omitted the rate is the default 1; and with
    a negative [serviceTax] the total is not
    [qty * (price + price * serviceTax / 100)]. *)
Lemma serviceTax_rate_differs :
  let rows := [Row.make (J "A") (J "10") (J "2")] in
  validateDataRows rows = Ok tt /\
  (exists item,
     calculateUnitTotals rows (str "usd") (JNum infinity) = Ok [item] /\
     LineItem.priceWithTax item
     <> (10 + (10 * claimedTaxRate (JNum infinity)) / 100)%float) /\
  (exists item,
     calculateUnitTotals rows (str "usd") JUndefined = Ok [item] /\
     LineItem.priceWithTax item
     <> (10 + (10 * claimedTaxRate JUndefined) / 100)%float) /\
  (exists item,
     calculateUnitTotals rows (str "usd") (JNum (-10)) = Ok [item] /\
     LineItem.totalWithTax item <> (2 * (10 + (10 * (-10)) / 100))%float).
Proof.
  cbv zeta. split; [vm_compute; reflexivity |].
  repeat split; eexists; (split; [vm_compute; reflexivity |]).
  - apply (float_neq PrimFloat.is_infinity). vm_compute. discriminate.
  - apply (float_neq (fun x => (x <=? 10)%float)). vm_compute. discriminate.
  - apply (float_neq (fun x => (x <=? 18)%float)). vm_compute. discriminate.
Qed.

(** A row whose price parses to NaN makes [calculateUnitTotals] throw. *)
Lemma calculateUnitTotals_nan_price
    (data : list Row.t) (currency : jsstring) (serviceTax : JsValue) :
  Exists (fun row => Number_isNaN (cleanPrice (Row.price row)) = true) data ->
  calculateUnitTotals data currency serviceTax = Throw arithmeticError.
Proof.
  unfold calculateUnitTotals. induction data as [| row data IH]; intros H.
  - inversion H.
  - cbn [mapResult].
    destruct (Number_isNaN (cleanPrice (Row.price row))) eqn:Hrow.
    + rewrite unitTotals_throws by exact Hrow. reflexivity.
    + rewrite (unitTotals_lineItem currency serviceTax row Hrow). cbn [bind].
      rewrite IH; [reflexivity |].
      apply Exists_cons in H as [H | H]; [congruence | exact H].
Qed.

(** C10, as the code has it: when no price parses to NaN, as in every
    validated table, [calculateUnitTotals] returns as many line items as
    there are rows, in the same order, each with the [item] and [qty] of
    its row; when some price parses to NaN it throws the arithmetic
    error. *)
Theorem calculateUnitTotals_frame
    (data : list Row.t) (currency : jsstring) (serviceTax : JsValue) :
  (Forall (fun row => Number_isNaN (cleanPrice (Row.price row)) = false) data /\
   exists items,
     calculateUnitTotals data currency serviceTax = Ok items /\
     length items = length data /\
     forall index row, data !! index = Some row ->
       exists item, items !! index = Some item /\
         LineItem.item item = Row.item row /\
         LineItem.qty item = Row.qty row)
  \/
  (Exists (fun row => Number_isNaN (cleanPrice (Row.price row)) = true) data /\
   calculateUnitTotals data currency serviceTax = Throw arithmeticError).
Proof.
  destruct (decide (Forall (fun row => Number_isNaN (cleanPrice (Row.price row)) = false)
                      data)) as [H | H].
  - left. split; [exact H |]. eexists. split; [apply calculateUnitTotals_ok, H |].
    split; [apply length_fmap |].
    intros index row Hrow. eexists. split.
    + rewrite list_lookup_fmap, Hrow. reflexivity.
    + split; reflexivity.
  - right. apply not_Forall_Exists in H; [| intros row; apply _].
    assert (Hnan : Exists (fun row => Number_isNaN (cleanPrice (Row.price row)) = true) data).
    { eapply Exists_impl; [exact H |]. intros row Hrow. cbn in Hrow.
      destruct (Number_isNaN _); [reflexivity | contradiction]. }
    split; [exact Hnan | apply calculateUnitTotals_nan_price, Hnan].
Qed.

(** Validated rows are in the first case. *)
Lemma calculateUnitTotals_validated
    (data : list Row.t) (currency : jsstring) (serviceTax : JsValue) :
  validateDataRows data = Ok tt ->
  exists items,
    calculateUnitTotals data currency serviceTax = Ok items /\
    length items = length data.
Proof.
  intros H. eexists. split; [apply calculateUnitTotals_ok, validated_prices, H |].
  apply length_fmap.
Qed.

(** C10 as the spec states it fails: on a row whose price does not parse
    [calculateUnitTotals] returns nothing, it throws. *)
Lemma calculateUnitTotals_throws :
  calculateUnitTotals [Row.make (J "A") (J "ten") (J "2")] (str "usd") (JNum 0)
  = Throw arithmeticError.
Proof. vm_compute. reflexivity. Qed.

(** ** parseAndValidateTable *)

Lemma mapResult_throw {A B} (f : A -> result B) (l : list A) (m : jsstring) :
  mapResult f l = Throw m -> exists a, a ∈ l /\ f a = Throw m.
Proof.
  induction l as [| a l IH]; [discriminate |].
  cbn. destruct (f a) as [b |] eqn:Ha; cbn.
  - destruct (mapResult f l) as [bs |]; cbn; [discriminate |].
    intros [= ->]. destruct IH as (a' & Hin & Ha'); [reflexivity |].
    exists a'. split; [right; exact Hin | exact Ha'].
  - intros [= ->]. exists a. split; [left | exact Ha].
Qed.

(** A missing column is reported by a message that starts with "M". *)
Lemma validateAndFilterColumns_message (data : list (gmap jsstring JsValue)) (m : jsstring) :
  validateAndFilterColumns data = Throw m -> head m = Some 77%N.
Proof.
  intros H. apply mapResult_throw in H as (row & _ & H).
  unfold expectedColumn in H.
  repeat (match type of H with
          | context [row !! ?c] => destruct (row !! c); cbn in H
          end); try discriminate; injection H as <-; reflexivity.
Qed.

(** Invalid cells are reported by a message that starts with "O". *)
Lemma validateDataRows_message (data : list Row.t) (m : jsstring) :
  validateDataRows data = Throw m -> head m = Some 79%N.
Proof.
  unfold validateDataRows. destruct (validationErrors data) as [| e es] eqn:E; [discriminate |].
  intros [= <-].
  assert (He : e ∈ validationErrors data) by (rewrite E; left).
  apply elem_of_validationErrors in He as (i & row & _ & [[_ ->] | [_ ->]]);
    destruct es; reflexivity.
Qed.

(** C6: [parseAndValidateTable] fails with the "no table" error exactly
    when no table was parsed; a first table without rows is accepted and
    gives no line items, which [calculateUnitTotals] keeps empty and
    [calculateInvoiceTotals] sums to a subtotal of 0. *)
Theorem parseAndValidateTable_no_table
    (slugKey : jsstring -> jsstring)
    (jsonTables : option (list (list (list (jsstring * JsValue))))) :
  (parseAndValidateTable slugKey jsonTables = Throw noTableError
   <-> default [] jsonTables = []) /\
  (forall rest, parseAndValidateTable slugKey (Some ([] :: rest)) = Ok []) /\
  (forall currency serviceTax, calculateUnitTotals [] currency serviceTax = Ok []) /\
  (forall tax otherFee discount currency,
     exists totals,
       calculateInvoiceTotals (Invoice.make [] tax otherFee discount currency)
       = Ok totals /\ Totals.subtotal totals = 0%float).
Proof.
  split; [| split; [reflexivity | split; [reflexivity |]]].
  - unfold parseAndValidateTable. destruct (default [] jsonTables) as [| first rest].
    + split; reflexivity.
    + split; [| discriminate]. intros H. exfalso.
      destruct (validateAndFilterColumns _) as [rows |] eqn:Hc; cbn in H.
      * destruct (validateDataRows rows) as [[] |] eqn:Hv; cbn in H; [discriminate |].
        injection H as ->. apply validateDataRows_message in Hv. discriminate Hv.
      * injection H as ->. apply validateAndFilterColumns_message in Hc. discriminate Hc.
  - intros tax otherFee discount currency.
    destruct (calculateAmount_is_number tax) as (t & Ht & Hnt).
    destruct (calculateAmount_is_number otherFee) as (f & Hf & Hnf).
    destruct (calculateAmount_is_number discount) as (d & Hd & Hnd).
    unfold calculateInvoiceTotals. cbn [Invoice.tables Invoice.tax Invoice.otherFee
      Invoice.discount fold_left].
    rewrite Ht, Hf, Hd.
    rewrite !calculatePercentage_numbers by (assumption || reflexivity).
    eexists. split; reflexivity.
Qed.

(** ** replacePlaceholders *)

Lemma matchUntilClose_name (name rest : jsstring) :
  plainName name = true ->
  matchUntilClose (name ++ str "}}" ++ rest) = Some (name, rest).
Proof.
  induction name as [| c name IH]; [reflexivity |].
  cbn [plainName forallb]. intros [[Hc Hl]%andb_true_iff Hn]%andb_true_iff.
  apply negb_true_iff in Hc, Hl. apply N.eqb_neq in Hc.
  cbn [app matchUntilClose]. rewrite Hl, (IH Hn).
  destruct c as [| p]; [reflexivity |].
  destruct (decide (N.pos p = 125%N)) as [E | _]; [contradiction |].
  repeat (destruct p as [p | p |]; try reflexivity; try contradiction).
Qed.

Lemma replaceFrom_skip (data : gmap jsstring JsValue) (passed rest : jsstring) :
  replaceFrom data (length passed) (passed ++ rest) = replaceFrom data 0 rest.
Proof. induction passed as [| c passed IH]; [reflexivity | exact IH]. Qed.

Lemma replaceFrom_match (data : gmap jsstring JsValue) (c : N)
    (rest placeholder after : jsstring) :
  matchPlaceholder (c :: rest) = Some (placeholder, after) ->
  replaceFrom data 0 (c :: rest)
  = replacement data placeholder ++ replaceFrom data (length placeholder + 3) rest.
Proof. intros H. cbn [replaceFrom]. rewrite H. reflexivity. Qed.

Lemma replaceFrom_token (data : gmap jsstring JsValue) (name rest : jsstring) :
  plainName name = true ->
  replaceFrom data 0 (renderSegment (Token name) ++ rest)
  = substitute data (Token name) ++ replaceFrom data 0 rest.
Proof.
  intros Hn.
  assert (Hskip : replaceFrom data (length name + 3) (123%N :: name ++ str "}}" ++ rest)
                  = replaceFrom data 0 rest).
  { rewrite <- (replaceFrom_skip data (123%N :: name ++ str "}}") rest).
    f_equal; [cbn [length]; rewrite length_app; cbn; lia |].
    cbn [app]. rewrite <- app_assoc. reflexivity. }
  cbn [renderSegment]. change (str "{{") with [123%N; 123%N].
  rewrite <- !app_assoc. cbn [app].
  rewrite (replaceFrom_match data _ _ name rest), Hskip.
  - reflexivity.
  - apply (matchUntilClose_name name rest Hn).
Qed.

Lemma replaceFrom_text (data : gmap jsstring JsValue) (text rest : jsstring) :
  plainText text = true ->
  replaceFrom data 0 (text ++ rest) = text ++ replaceFrom data 0 rest.
Proof.
  intros Ht. induction text as [| c text IH]; [reflexivity |].
  cbn [plainText] in Ht. apply andb_true_iff in Ht as [Hc Ht].
  cbn [app replaceFrom]. rewrite (IH Ht).
  assert (Hm : matchPlaceholder (c :: text ++ rest) = None).
  { unfold matchPlaceholder. destruct (N.eqb_spec c 123) as [-> | Hne].
    - destruct text as [| d text]; [discriminate Hc |].
      cbn in Hc. apply negb_true_iff, N.eqb_neq in Hc.
      cbn [app]. destruct d as [| p]; [reflexivity |].
      repeat (destruct p as [p | p |]; try reflexivity; try contradiction).
    - destruct c as [| p]; [reflexivity |].
      repeat (destruct p as [p | p |]; try reflexivity; try contradiction). }
  rewrite Hm. reflexivity.
Qed.

Lemma replaceFrom_segments (data : gmap jsstring JsValue) (segments : list segment) :
  Forall (fun seg => wellFormed seg = true) segments ->
  replaceFrom data 0 (mjoin (renderSegment <$> segments))
  = mjoin (substitute data <$> segments).
Proof.
  induction 1 as [| seg segments Hseg _ IH]; [reflexivity |].
  change (replaceFrom data 0 (renderSegment seg ++ mjoin (renderSegment <$> segments))
          = substitute data seg ++ mjoin (substitute data <$> segments)).
  destruct seg as [text | name].
  - rewrite replaceFrom_text by exact Hseg. rewrite IH. reflexivity.
  - rewrite replaceFrom_token by exact Hseg. rewrite IH. reflexivity.
Qed.




(** ** The scan of replacePlaceholders, step by step *)

Lemma matchUntilClose_shape (s name after : jsstring) :
  matchUntilClose s = Some (name, after) -> s = name ++ str "}}" ++ after.
Proof.
  revert name. induction s as [| c s IH]; intros name; [discriminate |].
  cbn [matchUntilClose].
  assert (Hstep : (if isLineTerminator c then None
                   else '(n, a) ← matchUntilClose s; Some (c :: n, a))
                  = Some (name, after) -> c :: s = name ++ str "}}" ++ after).
  { destruct (isLineTerminator c); [discriminate |].
    destruct (matchUntilClose s) as [[n a] |]; [| discriminate].
    cbn. intros [= <- <-]. cbn [app]. f_equal. apply IH. reflexivity. }
  destruct (decide (c = 125%N)) as [-> | Hc].
  - destruct s as [| d s]; [exact Hstep |].
    destruct (decide (d = 125%N)) as [-> | Hd].
    + intros [= <- <-]. reflexivity.
    + intros H. apply Hstep. rewrite <- H. clear -Hd.
      destruct d as [| p]; [reflexivity |].
      repeat (destruct p as [p | p |]; try reflexivity; try contradiction).
  - intros H. apply Hstep. rewrite <- H. clear -Hc.
    destruct c as [| p]; [reflexivity |].
    repeat (destruct p as [p | p |]; try reflexivity; try contradiction).
Qed.

Lemma matchPlaceholder_shape (html name after : jsstring) :
  matchPlaceholder html = Some (name, after) ->
  html = str "{{" ++ name ++ str "}}" ++ after.
Proof.
  unfold matchPlaceholder. intros H.
  destruct html as [| c html]; [discriminate H |].
  destruct (decide (c = 123%N)) as [-> | Hc].
  - destruct html as [| d rest]; [discriminate H |].
    destruct (decide (d = 123%N)) as [-> | Hd].
    + apply matchUntilClose_shape in H. rewrite H. reflexivity.
    + exfalso. destruct d as [| p]; [discriminate H |].
      repeat (destruct p as [p | p |]; try discriminate H; try contradiction).
  - exfalso. destruct c as [| p]; [discriminate H |].
    repeat (destruct p as [p | p |]; try discriminate H; try contradiction).
Qed.

(** Where the regular expression matches, the match is replaced and the
    scan goes on after it. *)
Lemma replacePlaceholders_at_match
    (html name after : jsstring) (data : gmap jsstring JsValue) :
  matchPlaceholder html = Some (name, after) ->
  replacePlaceholders html data
  = replacement data name ++ replacePlaceholders after data.
Proof.
  intros H. pose proof (matchPlaceholder_shape _ _ _ H) as Hshape.
  unfold replacePlaceholders. destruct html as [| c rest]; [discriminate H |].
  rewrite (replaceFrom_match data c rest name after H). f_equal.
  change (str "{{") with [123%N; 123%N] in Hshape. cbn [app] in Hshape.
  injection Hshape as _ ->.
  rewrite <- (replaceFrom_skip data (123%N :: name ++ str "}}") after).
  f_equal; [cbn [length]; rewrite length_app; cbn; lia |].
  cbn [app]. rewrite <- app_assoc. reflexivity.
Qed.

(** Where it does not, the code unit is copied. *)
Lemma replacePlaceholders_no_match
    (c : N) (rest : jsstring) (data : gmap jsstring JsValue) :
  matchPlaceholder (c :: rest) = None ->
  replacePlaceholders (c :: rest) data = c :: replacePlaceholders rest data.
Proof. intros H. unfold replacePlaceholders. cbn [replaceFrom]. rewrite H. reflexivity. Qed.

(** ** The built-ins on concrete inputs *)

Lemma parseFloat_examples :
  parseFloatString (str "10.00") = 10%float /\
  parseFloatString (str "  3.5abc") = 3.5%float /\
  parseFloatString (str "20%") = 20%float /\
  parseFloatString (str ".5") = 0.5%float /\
  parseFloatString (str "1e3") = 1000%float /\
  parseFloatString (str "-0") = (-0)%float /\
  parseFloatString (str "0x10") = 0%float /\
  parseFloatString (str "Infinity") = infinity /\
  parseFloatString (str "19.999") = 19.999%float /\
  isNaN (parseFloatString (str "ten")) = true /\
  isNaN (parseFloatString (str "")) = true.
Proof. repeat split; vm_compute; reflexivity. Qed.

Lemma parseInt_examples :
  parseIntString (str "2") = 2%float /\
  parseIntString (str "2.5") = 2%float /\
  parseIntString (str " 12px") = 12%float /\
  parseIntString (str "-7") = (-7)%float /\
  parseIntString (str "1e3") = 1%float /\
  parseIntString (str "9007199254740993") = 9007199254740992%float /\
  isNaN (parseIntString (str "x")) = true /\
  isNaN (parseIntString (str "Infinity")) = true.
Proof. repeat split; vm_compute; reflexivity. Qed.

Lemma StringToNumber_examples :
  StringToNumber (str "2") = 2%float /\
  StringToNumber (str " 12 ") = 12%float /\
  StringToNumber (str "") = 0%float /\
  StringToNumber (str "0x10") = 16%float /\
  StringToNumber (str "5.") = 5%float /\
  StringToNumber (str "-Infinity") = neg_infinity /\
  isNaN (StringToNumber (str "2 units")) = true /\
  isNaN (StringToNumber (str "20%")) = true /\
  isNaN (StringToNumber (str "1e")) = true.
Proof. repeat split; vm_compute; reflexivity. Qed.

Lemma NumberToString_examples :
  NumberToString 100 = str "100" /\
  NumberToString 0.1 = str "0.1" /\
  NumberToString 19.999 = str "19.999" /\
  NumberToString (-1.5) = str "-1.5" /\
  NumberToString 0.000001 = str "0.000001" /\
  NumberToString 1e-7 = str "1e-7" /\
  NumberToString 123456789012345680000 = str "123456789012345680000" /\
  NumberToString 1e21 = str "1e+21" /\
  NumberToString 1.7976931348623157e308 = str "1.7976931348623157e+308" /\
  NumberToString 5e-324 = str "5e-324" /\
  NumberToString (-0) = str "0" /\
  NumberToString neg_infinity = str "-Infinity" /\
  NumberToString nan = str "NaN".
Proof. repeat split; vm_compute; reflexivity. Qed.

(** [parseFloat] on a Number agrees with reading its string back. *)
Lemma parseFloat_reads_back :
  Forall (fun x => parseFloatString (NumberToString x) = parseFloat (JNum x))
    [0; -0; 1; 20; 0.1; 19.999; -1.5; 1e21; 1e-7; 5e-324; 0.30000000000000004;
     1.7976931348623157e308; 242.39999999999998; infinity; neg_infinity; nan]%float.
Proof. repeat constructor; vm_compute; reflexivity. Qed.

Lemma toFixed_examples :
  toFixed2 5 = str "5.00" /\
  toFixed2 19.999 = str "20.00" /\
  toFixed2 1.005 = str "1.00" /\
  toFixed2 0.125 = str "0.13" /\
  toFixed2 (-1.5) = str "-1.50" /\
  toFixed2 (-0.001) = str "-0.00" /\
  toFixed2 (-0) = str "0.00" /\
  toFixed2 1e21 = str "1e+21" /\
  toFixed2 nan = str "NaN" /\
  toFixed2 infinity = str "Infinity".
Proof. repeat split; vm_compute; reflexivity. Qed.

Lemma Math_round_examples :
  Math_round 2.5 = 3%float /\
  Math_round (-2.5) = (-2)%float /\
  Math_round 258.456 = 258%float /\
  Math_round 0.49999999999999994 = 0%float /\
  Math_round (-0.2) = (-0)%float /\
  Math_round 4503599627370495.5 = 4503599627370496%float /\
  Math_round infinity = infinity.
Proof. repeat split; vm_compute; reflexivity. Qed.

(** ** The sample document *)

Lemma sample_totals :
  validateDataRows sampleRows = Ok tt /\
  exists tables totals,
    calculateUnitTotals sampleRows (str "GBP") (cleanPrice (J "20%")) = Ok tables /\
    calculateInvoiceTotals
      (Invoice.make tables (cleanPrice (J "15%")) (cleanPrice (J "4%"))
         (cleanPrice (JNum 30)) (str "GBP")) = Ok totals /\
    LineItem.totalWithTax <$> tables = [24; 54; 48; 57.6; 28.799999999999997; 30]%float /\
    Totals.subtotal totals = 242.39999999999998%float /\
    Totals.taxAmt totals = 36.359999999999992%float /\
    Totals.otherFeeAmt totals = 9.6959999999999997%float /\
    Totals.total totals = 258.45600000000002%float /\
    Totals.subtotalHtml totals = 163%N :: str "242.40" /\
    Totals.discountHtml totals = 163%N :: str "30.00" /\
    Totals.totalHtml totals = 163%N :: str "258.00".
Proof.
  split; [vm_compute; reflexivity |].
  do 2 eexists. split; [vm_compute; reflexivity |].
  split; [vm_compute; reflexivity |].
  repeat split; vm_compute; reflexivity.
Qed.

(** ** validateAndFilterColumns *)

Lemma validateRow_ok (row : gmap jsstring JsValue) (filtered : Row.t) :
  (item <- expectedColumn row (str "item") ;;
   price <- expectedColumn row (str "price") ;;
   qty <- expectedColumn row (str "qty") ;;
   Ok (Row.make item price qty)) = Ok filtered
  <-> filteredFrom row filtered.
Proof.
  unfold expectedColumn, filteredFrom. destruct filtered as [i p q].
  cbn [Row.item Row.price Row.qty].
  destruct (row !! str "item") as [vi |]; cbn [bind];
    [| split; [intros H; discriminate H | intros (H & _); discriminate H]].
  destruct (row !! str "price") as [vp |]; cbn [bind];
    [| split; [intros H; discriminate H | intros (_ & H & _); discriminate H]].
  destruct (row !! str "qty") as [vq |]; cbn [bind];
    [| split; [intros H; discriminate H | intros (_ & _ & H); discriminate H]].
  split.
  - intros [= -> -> ->]. auto.
  - intros ([= ->] & [= ->] & [= ->]). reflexivity.
Qed.

Lemma mapResult_Forall2 {A B} (f : A -> result B) (l : list A) (k : list B) :
  mapResult f l = Ok k <-> Forall2 (fun a b => f a = Ok b) l k.
Proof.
  revert k. induction l as [| a l IH]; intros k; cbn.
  - split; [intros [= <-]; constructor | intros H; inversion H; reflexivity].
  - destruct (f a) as [b |] eqn:Ha; cbn.
    + destruct (mapResult f l) as [bs |] eqn:Hl; cbn.
      * split.
        -- intros [= <-]. constructor; [exact Ha | apply IH; reflexivity].
        -- intros H. inversion H as [| ? b' ? k' Hb Hk]; subst.
           apply IH in Hk. congruence.
      * split; [discriminate |].
        intros H. inversion H as [| ? b' ? k' Hb Hk]; subst.
        apply IH in Hk. discriminate.
    + split; [discriminate |].
      intros H. inversion H; subst. congruence.
Qed.

(** [validateAndFilterColumns] succeeds exactly with the rows made, one
    for one and in order, of the [item], [price] and [qty] of the raw
    rows: every raw row has the three columns, and any other column is
    dropped. *)
Theorem validateAndFilterColumns_filtered
    (data : list (gmap jsstring JsValue)) (rows : list Row.t) :
  validateAndFilterColumns data = Ok rows <-> Forall2 filteredFrom data rows.
Proof.
  unfold validateAndFilterColumns. rewrite mapResult_Forall2.
  split; intros H; (eapply Forall2_impl; [exact H |]);
    intros row filtered; apply validateRow_ok.
Qed.

Lemma validateRow_missing (row : gmap jsstring JsValue) (column : jsstring) :
  firstMissing row = Some column ->
  (item <- expectedColumn row (str "item") ;;
   price <- expectedColumn row (str "price") ;;
   qty <- expectedColumn row (str "qty") ;;
   Ok (Row.make item price qty)) = Throw (missingColumnError column).
Proof.
  unfold firstMissing, expectedColumn, missingColumnError. cbn [List.find].
  destruct (row !! str "item"); cbn [bind bool_decide decide_rel];
    [| rewrite bool_decide_eq_true_2 by reflexivity; intros [= <-]; reflexivity].
  rewrite bool_decide_eq_false_2 by discriminate.
  destruct (row !! str "price"); cbn [bind];
    [| rewrite bool_decide_eq_true_2 by reflexivity; intros [= <-]; reflexivity].
  rewrite bool_decide_eq_false_2 by discriminate.
  destruct (row !! str "qty"); cbn [bind];
    [| rewrite bool_decide_eq_true_2 by reflexivity; intros [= <-]; reflexivity].
  rewrite bool_decide_eq_false_2 by discriminate. discriminate.
Qed.

Lemma validateRow_complete (row : gmap jsstring JsValue) :
  firstMissing row = None ->
  exists filtered,
    (item <- expectedColumn row (str "item") ;;
     price <- expectedColumn row (str "price") ;;
     qty <- expectedColumn row (str "qty") ;;
     Ok (Row.make item price qty)) = Ok filtered.
Proof.
  unfold firstMissing, expectedColumn. cbn [List.find].
  destruct (row !! str "item"); cbn [bind];
    [| rewrite bool_decide_eq_true_2 by reflexivity; discriminate].
  rewrite bool_decide_eq_false_2 by discriminate.
  destruct (row !! str "price"); cbn [bind];
    [| rewrite bool_decide_eq_true_2 by reflexivity; discriminate].
  rewrite bool_decide_eq_false_2 by discriminate.
  destruct (row !! str "qty"); cbn [bind];
    [| rewrite bool_decide_eq_true_2 by reflexivity; discriminate].
  eauto.
Qed.

(** [validateAndFilterColumns] fails on the first raw row that lacks a
    column, naming the first of [item], [price], [qty] that this row
    lacks, whatever the rows after it hold. *)
Theorem validateAndFilterColumns_missing
    (before after : list (gmap jsstring JsValue))
    (row : gmap jsstring JsValue) (column : jsstring) :
  Forall (fun complete => firstMissing complete = None) before ->
  firstMissing row = Some column ->
  validateAndFilterColumns (before ++ row :: after)
  = Throw (missingColumnError column).
Proof.
  intros Hbefore Hrow. unfold validateAndFilterColumns.
  induction Hbefore as [| complete before Hc _ IH]; cbn [app mapResult].
  - rewrite (validateRow_missing row column Hrow). reflexivity.
  - destruct (validateRow_complete complete Hc) as [filtered ->]. cbn [bind].
    rewrite IH. reflexivity.
Qed.

Lemma validateAndFilterColumns_missing_witness :
  validateAndFilterColumns
    ([ {[ str "item" := J "A"; str "price" := J "1"; str "qty" := J "2" ]} ]
     ++ {[ str "item" := J "B"; str "price" := J "x" ]}
     :: [ {[ str "price" := J "3" ]} ])
  = Throw (missingColumnError (str "qty")).
Proof.
  apply (validateAndFilterColumns_missing
           [ {[ str "item" := J "A"; str "price" := J "1"; str "qty" := J "2" ]} ]
           [ {[ str "price" := J "3" ]} ]
           {[ str "item" := J "B"; str "price" := J "x" ]} (str "qty")).
  - repeat constructor.
  - vm_compute. reflexivity.
Defined.

(** ** slugifyObjectKeys *)

Lemma slugifyObjectKeys_snoc (slugKey : jsstring -> jsstring)
    (obj : list (jsstring * JsValue)) (kv : jsstring * JsValue) :
  slugifyObjectKeys slugKey (obj ++ [kv])
  = if bool_decide (slugKey kv.1 = str "__proto__") then slugifyObjectKeys slugKey obj
    else <[slugKey kv.1 := kv.2]> (slugifyObjectKeys slugKey obj).
Proof. unfold slugifyObjectKeys. rewrite fold_left_app. reflexivity. Qed.

(** In the object [slugifyObjectKeys] builds, a key other than
    ["__proto__"] holds the value of the last property whose slug it is,
    and is absent when it is the slug of none; ["__proto__"] is never a
    key. *)
Theorem slugifyObjectKeys_lookup (slugKey : jsstring -> jsstring)
    (obj : list (jsstring * JsValue)) (key : jsstring) :
  slugifyObjectKeys slugKey obj !! key
  = if bool_decide (key = str "__proto__") then None
    else snd <$> last (filter (fun kv => slugKey kv.1 = key) obj).
Proof.
  induction obj as [| kv obj IH] using rev_ind.
  - destruct (bool_decide _); reflexivity.
  - rewrite slugifyObjectKeys_snoc, filter_app, filter_cons, filter_nil.
    destruct (bool_decide (slugKey kv.1 = str "__proto__")) eqn:Hproto.
    + rewrite IH. destruct (bool_decide (key = str "__proto__")) eqn:Hkey; [reflexivity |].
      apply bool_decide_eq_true in Hproto. apply bool_decide_eq_false in Hkey.
      destruct (decide (slugKey kv.1 = key)) as [E | _]; [congruence |].
      rewrite app_nil_r. reflexivity.
    + apply bool_decide_eq_false in Hproto.
      destruct (decide (slugKey kv.1 = key)) as [E | Hne].
      * rewrite E, lookup_insert_eq, last_snoc.
        rewrite bool_decide_eq_false_2 by congruence. reflexivity.
      * rewrite lookup_insert_ne by exact Hne. rewrite IH, app_nil_r. reflexivity.
Qed.

(** ** parseAndValidateTable, continued *)

Lemma parseAndValidateTable_inv (slugKey : jsstring -> jsstring)
    (jsonTables : option (list (list (list (jsstring * JsValue)))))
    (rows : list Row.t) :
  parseAndValidateTable slugKey jsonTables = Ok rows ->
  exists first rest,
    default [] jsonTables = first :: rest /\
    validateAndFilterColumns (map (slugifyObjectKeys slugKey) first) = Ok rows /\
    validateDataRows rows = Ok tt.
Proof.
  unfold parseAndValidateTable. destruct (default [] jsonTables) as [| first rest]; [discriminate |].
  destruct (validateAndFilterColumns _) as [filtered |] eqn:Hc; cbn [bind]; [| discriminate].
  destruct (validateDataRows filtered) as [[] |] eqn:Hv; cbn [bind]; [| discriminate].
  intros [= <-]. eauto.
Qed.

(** A table [parseAndValidateTable] returns has one row for each row of
    the first parsed table, passes [validateDataRows], and never makes
    [calculateUnitTotals] throw: that returns one line item for each of
    its rows, whatever the currency and the service tax. *)
Theorem parseAndValidateTable_validated (slugKey : jsstring -> jsstring)
    (jsonTables : option (list (list (list (jsstring * JsValue)))))
    (rows : list Row.t) :
  parseAndValidateTable slugKey jsonTables = Ok rows ->
  (exists first rest,
     default [] jsonTables = first :: rest /\ length rows = length first) /\
  validateDataRows rows = Ok tt /\
  forall currency serviceTax,
    exists items,
      calculateUnitTotals rows currency serviceTax = Ok items /\
      length items = length rows.
Proof.
  intros H. apply parseAndValidateTable_inv in H as (first & rest & Hd & Hc & Hv).
  split; [| split; [exact Hv |]].
  - exists first, rest. split; [exact Hd |].
    unfold validateAndFilterColumns in Hc.
    apply mapResult_Forall2, Forall2_length in Hc.
    rewrite length_map in Hc. symmetry. exact Hc.
  - intros currency serviceTax. apply calculateUnitTotals_validated, Hv.
Qed.

Lemma parseAndValidateTable_validated_witness :
  let jsonTables :=
    Some [[ [(str "Item", J "A"); (str "Price", J "10"); (str "Qty", J "2");
             (str "Note", J "n")] ]] in
  let rows := [Row.make (J "A") (J "10") (J "2")] in
  (exists first rest,
     default [] jsonTables = first :: rest /\ length rows = length first) /\
  validateDataRows rows = Ok tt /\
  forall currency serviceTax,
    exists items,
      calculateUnitTotals rows currency serviceTax = Ok items /\
      length items = length rows.
Proof.
  apply (parseAndValidateTable_validated toLowerCase). vm_compute. reflexivity.
Defined.

(** ** replacePlaceholders, continued *)

(** The scan of [replacePlaceholders]: where the regular expression
    matches, the match is replaced by the callback's value, which is not
    scanned again, and the scan goes on after the match; where it does
    not, one code unit is copied. *)
Theorem replacePlaceholders_scan (data : gmap jsstring JsValue) :
  replacePlaceholders [] data = [] /\
  (forall html name after,
     matchPlaceholder html = Some (name, after) ->
     html = str "{{" ++ name ++ str "}}" ++ after /\
     replacePlaceholders html data
     = replacement data name ++ replacePlaceholders after data) /\
  (forall c rest,
     matchPlaceholder (c :: rest) = None ->
     replacePlaceholders (c :: rest) data = c :: replacePlaceholders rest data).
Proof.
  split; [reflexivity |]. split.
  - intros html name after H. split.
    + apply matchPlaceholder_shape, H.
    + apply replacePlaceholders_at_match, H.
  - intros c rest H. apply replacePlaceholders_no_match, H.
Qed.

Lemma replacePlaceholders_unmatched_length (n : nat) (html : jsstring)
    (data : gmap jsstring JsValue) :
  (length html <= n)%nat ->
  (forall name, data !! name = None) ->
  replacePlaceholders html data = html.
Proof.
  revert html. induction n as [| n IH]; intros html Hlen Hdata.
  - destruct html; [reflexivity | cbn in Hlen; lia].
  - destruct html as [| c rest]; [reflexivity |].
    destruct (matchPlaceholder (c :: rest)) as [[name after] |] eqn:Hm.
    + pose proof (matchPlaceholder_shape _ _ _ Hm) as Hshape.
      rewrite (replacePlaceholders_at_match _ _ _ data Hm).
      unfold replacement. rewrite Hdata, IH; [| | exact Hdata].
      * rewrite Hshape. rewrite <- !app_assoc. reflexivity.
      * apply (f_equal length) in Hshape. rewrite !length_app in Hshape.
        cbn in Hshape, Hlen. lia.
    + rewrite (replacePlaceholders_no_match _ _ data Hm), IH; [reflexivity | | exact Hdata].
      cbn in Hlen. lia.
Qed.

(** With no data at all, [replacePlaceholders] returns every template as
    it is. *)
Theorem replacePlaceholders_no_data (html : jsstring) :
  replacePlaceholders html ∅ = html.
Proof.
  apply (replacePlaceholders_unmatched_length (length html)); [lia |].
  intros name. apply lookup_empty.
Qed.

(** When the values of [data] open no token, a second pass of
    [replacePlaceholders] changes nothing. *)
Theorem replacePlaceholders_idempotent
    (segments : list segment) (data : gmap jsstring JsValue) :
  Forall (fun seg => wellFormed seg = true) segments ->
  (forall name v, data !! name = Some v -> plainText (ToString v) = true) ->
  let once := replacePlaceholders (mjoin (renderSegment <$> segments)) data in
  replacePlaceholders once data = once.
Proof.
  intros Hwf Hvalues. cbv zeta. unfold replacePlaceholders.
  rewrite (replaceFrom_segments data segments Hwf).
  assert (Hpassed : mjoin (substitute data <$> segments)
                    = mjoin (renderSegment <$> (passed data <$> segments))).
  { f_equal. rewrite <- list_fmap_compose. apply list_fmap_ext.
    intros i [text | name] _; cbn; [reflexivity |].
    destruct (data !! name); reflexivity. }
  rewrite Hpassed at 1. rewrite replaceFrom_segments.
  - rewrite Hpassed. f_equal. rewrite <- !list_fmap_compose. apply list_fmap_ext.
    intros i [text | name] _; cbn; [reflexivity |].
    destruct (data !! name) as [v |] eqn:E; cbn; [reflexivity |].
    rewrite E. reflexivity.
  - apply Forall_fmap. eapply Forall_impl; [exact Hwf |].
    intros [text | name] H; cbn; [exact H |].
    destruct (data !! name) as [v |] eqn:E; [| exact H].
    cbn. apply (Hvalues name v E).
Qed.

Lemma replacePlaceholders_idempotent_witness :
  let template := str "<b>{{title}}</b> {{unknownField}}" in
  let data : gmap jsstring JsValue := {[ str "title" := J "X { y }" ]} in
  let once := replacePlaceholders template data in
  replacePlaceholders once data = once.
Proof.
  pose (segments := [Text (str "<b>"); Token (str "title"); Text (str "</b> ");
                     Token (str "unknownField")]).
  pose (data := ({[ str "title" := J "X { y }" ]} : gmap jsstring JsValue)).
  change (let once := replacePlaceholders (mjoin (renderSegment <$> segments)) data in
          replacePlaceholders once data = once).
  apply replacePlaceholders_idempotent.
  - repeat constructor.
  - intros name v H. apply lookup_singleton_Some in H as [_ <-]. reflexivity.
Defined.

(** ** getCurrencySymbol and formatPrice, continued *)

Lemma find_unlisted (table : list (jsstring * jsstring)) (code : jsstring) :
  Forall (fun curr => curr.1 <> code) table ->
  List.find (fun curr => bool_decide (curr.1 = code)) table = None.
Proof.
  induction 1 as [| curr table Hne _ IH]; [reflexivity |].
  cbn [List.find]. rewrite bool_decide_eq_false_2 by exact Hne. exact IH.
Qed.

(** A code that, in lower case, is neither a key of [CURRENCIES] nor a
    member of [Object.prototype] has no symbol: [formatPrice] gives the
    fixed value alone. *)
Theorem formatPrice_unlisted (value : JsValue) (currencyCode : jsstring) :
  Forall (fun curr => curr.1 <> toLowerCase currencyCode) CURRENCIES ->
  objectPrototypeGet (toLowerCase currencyCode) = JUndefined ->
  getCurrencySymbol currencyCode = JStr []
  /\ formatPrice value currencyCode = toFixed2 (parseFloat value).
Proof.
  intros Hkeys Hproto.
  assert (Hs : getCurrencySymbol currencyCode = JStr []).
  { rewrite (getCurrencySymbol_listed _ Hproto). unfold listedSymbol.
    rewrite (find_unlisted _ _ Hkeys). reflexivity. }
  split; [exact Hs |]. apply (formatPrice_symbol value currencyCode [] Hs).
Qed.

Lemma formatPrice_unlisted_witness :
  getCurrencySymbol (str "XYZ") = JStr []
  /\ formatPrice (JNum 5) (str "XYZ") = toFixed2 (parseFloat (JNum 5)).
Proof.
  apply (formatPrice_unlisted (JNum 5) (str "XYZ")).
  - unfold CURRENCIES. repeat (apply Forall_cons; split);
      try (apply Forall_nil; exact I); vm_compute; discriminate.
  - vm_compute. reflexivity.
Defined.

(** The table is read without regard to letter case: a code whose lower
    case is a key of [CURRENCIES] gets that key's symbol. *)
Theorem getCurrencySymbol_case_insensitive
    (currencyCode key symbol : jsstring) :
  (key, symbol) ∈ CURRENCIES ->
  toLowerCase currencyCode = key ->
  getCurrencySymbol currencyCode = JStr symbol
  /\ forall value,
       formatPrice value currencyCode = symbol ++ toFixed2 (parseFloat value).
Proof.
  intros Hin Hlow.
  assert (Hs : getCurrencySymbol currencyCode = JStr symbol).
  { unfold getCurrencySymbol. rewrite Hlow. clear Hlow.
    apply list_elem_of_In in Hin. unfold CURRENCIES in Hin. cbn [In] in Hin.
    repeat (destruct Hin as [Hin | Hin]; [injection Hin as <- <-; vm_compute; reflexivity |]).
    contradiction. }
  split; [exact Hs |]. intros value. apply formatPrice_symbol, Hs.
Qed.

Lemma getCurrencySymbol_case_insensitive_witness :
  getCurrencySymbol (str "KES") = JStr (str "Ksh")
  /\ forall value,
       formatPrice value (str "KES") = str "Ksh" ++ toFixed2 (parseFloat value).
Proof.
  apply (getCurrencySymbol_case_insensitive (str "KES") (str "kes") (str "Ksh")).
  - vm_compute. repeat (first [left; reflexivity | right]).
  - vm_compute. reflexivity.
Defined.

Lemma uintDigits_digits (d : Decimal.uint) :
  Forall (fun c => isDigit c = true) (uintDigits d).
Proof. induction d; cbn [uintDigits]; constructor; (reflexivity || assumption). Qed.

(** The text [toFixed(2)] gives for a finite Number below 10^21 in
    magnitude: digits, a point, two digits. *)
Lemma toFixed2_digits (x : float) (q : Q) :
  F2Q x = Some q -> Qle_bool (Qpower 10 21) (Qabs q) = false ->
  exists whole decimals,
    toFixed2 x
    = str (if Qle_bool 0 q then "" else "-") ++ whole ++ str "." ++ decimals
    /\ whole <> [] /\ length decimals = 2%nat
    /\ Forall (fun c => isDigit c = true) (whole ++ decimals).
Proof.
  intros Hq Hsmall. unfold toFixed2. rewrite Hq, Hsmall.
  set (m := zeros _ ++ digitsOfZ _).
  assert (Hm : (3 <= length m)%nat).
  { unfold m, zeros. rewrite length_app, length_replicate. lia. }
  exists (take (length m - 2) m), (drop (length m - 2) m).
  split; [reflexivity |]. split; [| split].
  - intros H. apply (f_equal length) in H. rewrite length_take in H. cbn in H. lia.
  - rewrite length_drop. lia.
  - rewrite take_drop. unfold m. apply Forall_app. split.
    + unfold zeros. apply Forall_replicate. reflexivity.
    + apply uintDigits_digits.
Qed.

(** [formatPrice] never fails and never drops the amount: its value ends
    with [toFixed(2)] of the parsed value, which for a finite amount
    below 10^21 in magnitude is an optional sign, digits, a point and two
    digits. *)
Theorem formatPrice_amount (value : JsValue) (currency : jsstring) :
  exists symbol,
    formatPrice value currency = symbol ++ toFixed2 (parseFloat value) /\
    forall q,
      F2Q (parseFloat value) = Some q ->
      Qle_bool (Qpower 10 21) (Qabs q) = false ->
      exists whole decimals,
        formatPrice value currency
        = symbol ++ str (if Qle_bool 0 q then "" else "-")
            ++ whole ++ str "." ++ decimals
        /\ whole <> [] /\ length decimals = 2%nat
        /\ Forall (fun c => isDigit c = true) (whole ++ decimals).
Proof.
  destruct (formatPrice_fixed value currency) as [symbol Hs].
  exists symbol. split; [exact Hs |].
  intros q Hq Hsmall.
  destruct (toFixed2_digits _ _ Hq Hsmall) as (whole & decimals & Hx & Hrest).
  exists whole, decimals. split; [| exact Hrest].
  rewrite Hs, Hx. reflexivity.
Qed.

(** ** validateDataRows, continued *)

(** The rows are reported in table order, each under its position in
    the whole table, and a table passes exactly when each of its parts
    does. *)
Theorem validateDataRows_app (before after : list Row.t) :
  validationErrors (before ++ after)
  = validationErrors before
    ++ mjoin (imap (fun index => rowErrors (length before + index)) after)
  /\ (validateDataRows (before ++ after) = Ok tt
      <-> validateDataRows before = Ok tt /\ validateDataRows after = Ok tt).
Proof.
  split.
  - unfold validationErrors. rewrite imap_app, join_app. reflexivity.
  - rewrite !validateDataRows_ok. apply Forall_app.
Qed.

(** ** calculateAmount, continued *)

Lemma SF_positive_nonnegative (f : spec_float) :
  SFltb (S754_zero false) f = true -> SFleb (S754_zero false) f = true.
Proof. destruct f as [[] | [] | | [] m e]; cbn; congruence. Qed.

Lemma positive_nonnegative (x : float) :
  (0 <? x)%float = true -> (0 <=? x)%float = true.
Proof.
  rewrite FloatAxioms.leb_spec, FloatAxioms.ltb_spec.
  change (Prim2SF 0) with (S754_zero false). apply SF_positive_nonnegative.
Qed.

(** A configured amount that is absent or a Number resolves to a Number
    that is not NaN and not negative: no configured value can turn a
    charge into a credit, or a discount into a charge. *)
Theorem calculateAmount_nonnegative (value : JsValue) :
  value = JUndefined \/ value = JNull \/ (exists x, value = JNum x) ->
  exists amount,
    calculateAmount value = JNum amount
    /\ isNaN amount = false /\ (0 <=? amount)%float = true.
Proof.
  intros [-> | [-> | [x ->]]].
  - exists 0%float. repeat split.
  - exists 0%float. repeat split.
  - rewrite calculateAmount_number. destruct (0 <? x)%float eqn:E.
    + exists x. split; [reflexivity |]. split.
      * apply positive_not_zero, E.
      * apply positive_nonnegative, E.
    + exists 0%float. repeat split.
Qed.

Lemma calculateAmount_nonnegative_witness :
  exists amount,
    calculateAmount (JNum (-30)) = JNum amount
    /\ isNaN amount = false /\ (0 <=? amount)%float = true.
Proof.
  apply (calculateAmount_nonnegative (JNum (-30))). right. right. eexists. reflexivity.
Defined.

(** ** parseDescription and parseNotes *)

Lemma trimStart_nil (s : jsstring) :
  trimStart s = [] <-> Forall (fun c => isStrWhiteSpaceChar c = true) s.
Proof.
  induction s as [| c s IH]; cbn [trimStart].
  - split; [constructor | reflexivity].
  - destruct (isStrWhiteSpaceChar c) eqn:E.
    + rewrite IH, Forall_cons. tauto.
    + split; [discriminate |]. intros H. inversion H; congruence.
Qed.

Lemma trimEnd_nil (s : jsstring) :
  trimEnd s = [] <-> Forall (fun c => isStrWhiteSpaceChar c = true) s.
Proof.
  induction s as [| c s IH]; cbn [trimEnd].
  - split; [constructor | reflexivity].
  - rewrite Forall_cons, <- IH. destruct (trimEnd s) as [| d kept].
    + destruct (isStrWhiteSpaceChar c); intuition congruence.
    + intuition discriminate.
Qed.

Lemma trimStart_head (s : jsstring) :
  trimStart s = []
  \/ exists c rest, trimStart s = c :: rest /\ isStrWhiteSpaceChar c = false.
Proof.
  induction s as [| c s IH]; cbn [trimStart]; [left; reflexivity |].
  destruct (isStrWhiteSpaceChar c) eqn:E; [exact IH | right; eauto].
Qed.

Lemma trimEnd_head (c : N) (s : jsstring) :
  isStrWhiteSpaceChar c = false -> exists kept, trimEnd (c :: s) = c :: kept.
Proof.
  intros E. cbn [trimEnd]. rewrite E. destruct (trimEnd s); eauto.
Qed.

Lemma trim_nil (s : jsstring) :
  trim s = [] <-> Forall (fun c => isStrWhiteSpaceChar c = true) s.
Proof.
  unfold trim. rewrite <- trimStart_nil.
  destruct (trimStart_head s) as [-> | (c & rest & -> & E)]; [tauto |].
  destruct (trimEnd_head c rest E) as [kept ->]. split; discriminate.
Qed.

Lemma trim_head (s : jsstring) :
  trim s = [] \/ exists c rest, trim s = c :: rest /\ isStrWhiteSpaceChar c = false.
Proof.
  unfold trim. destruct (trimStart_head s) as [-> | (c & rest & -> & E)].
  - left. reflexivity.
  - right. destruct (trimEnd_head c rest E) as [kept ->]. eauto.
Qed.

Lemma splitLines_cons (c : N) (s : jsstring) :
  (c =? 10)%N = false ->
  exists line lines, splitLines s = line :: lines
                     /\ splitLines (c :: s) = (c :: line) :: lines.
Proof.
  intros E. cbn [splitLines]. rewrite E.
  assert (H : splitLines s <> []) by (destruct s as [| d s]; cbn; [discriminate |];
    destruct (d =? 10)%N; [discriminate | destruct (splitLines s); discriminate]).
  destruct (splitLines s) as [| line lines]; [contradiction | eauto].
Qed.

Lemma nonBlankLines_nil (inputString : jsstring) :
  nonBlankLines inputString = []
  <-> Forall (fun c => isStrWhiteSpaceChar c = true) inputString.
Proof.
  unfold nonBlankLines. rewrite <- trim_nil.
  destruct (trim_head inputString) as [-> | (c & rest & -> & E)].
  - split; reflexivity.
  - split; [| discriminate]. intros H. exfalso.
    assert (Hc : (c =? 10)%N = false).
    { destruct (N.eqb_spec c 10) as [-> |]; [discriminate E | reflexivity]. }
    destruct (splitLines_cons c rest Hc) as (line & lines & _ & Hs).
    rewrite Hs in H. cbn [List.filter] in H.
    assert (Hline : trim (c :: line) <> []).
    { rewrite trim_nil. intros Hall. inversion Hall; congruence. }
    rewrite bool_decide_eq_false_2 in H by exact Hline. discriminate H.
Qed.

(** [parseDescription] and [parseNotes] give the empty string, and no
    markup, exactly for an input that is all white space. *)
Theorem parseDescription_blank (inputString : jsstring) :
  (parseDescription inputString = []
   <-> Forall (fun c => isStrWhiteSpaceChar c = true) inputString)
  /\ (parseNotes inputString = []
      <-> Forall (fun c => isStrWhiteSpaceChar c = true) inputString).
Proof.
  rewrite <- nonBlankLines_nil. unfold parseDescription, parseNotes.
  destruct (nonBlankLines inputString); split; split; (reflexivity || discriminate).
Qed.

Lemma splitLines_line (line : jsstring) :
  10%N ∉ line -> splitLines line = [line].
Proof.
  induction line as [| c line IH]; [reflexivity |].
  intros H. apply not_elem_of_cons in H as [Hc Hl].
  cbn [splitLines]. rewrite (proj2 (N.eqb_neq c 10) (not_eq_sym Hc)), (IH Hl). reflexivity.
Qed.

Lemma splitLines_app (line rest : jsstring) :
  10%N ∉ line -> splitLines (line ++ 10%N :: rest) = line :: splitLines rest.
Proof.
  induction line as [| c line IH]; [reflexivity |].
  intros H. apply not_elem_of_cons in H as [Hc Hl].
  cbn [app splitLines]. rewrite (proj2 (N.eqb_neq c 10) (not_eq_sym Hc)), (IH Hl). reflexivity.
Qed.

(** Splitting undoes joining with line feeds. *)
Lemma splitLines_join (lines : list jsstring) :
  lines <> [] -> Forall (fun line => 10%N ∉ line) lines ->
  splitLines (join [10%N] lines) = lines.
Proof.
  intros Hne H. induction H as [| line lines Hl Hls IH]; [contradiction |].
  destruct lines as [| next lines].
  - apply splitLines_line, Hl.
  - change (join [10%N] (line :: next :: lines))
      with (line ++ 10%N :: join [10%N] (next :: lines)).
    rewrite (splitLines_app line _ Hl), IH by discriminate. reflexivity.
Qed.

Lemma join_empty_mjoin (l : list jsstring) : join [] l = mjoin l.
Proof.
  induction l as [| x l IH]; [reflexivity |].
  destruct l as [| y l]; [cbn; rewrite app_nil_r; reflexivity |].
  change (join [] (x :: y :: l)) with (x ++ join [] (y :: l)).
  rewrite IH. reflexivity.
Qed.

Lemma nonBlankLines_join (lines : list jsstring) :
  lines <> [] -> Forall (fun line => 10%N ∉ line) lines ->
  trim (join [10%N] lines) = join [10%N] lines ->
  nonBlankLines (join [10%N] lines) = List.filter nonBlank lines.
Proof.
  intros Hne Hlines Htrim. unfold nonBlankLines.
  rewrite Htrim, splitLines_join by assumption. reflexivity.
Qed.

(** On a text without white space at its ends, [parseDescription] wraps
    each line that is not blank in a paragraph, in order, and drops the
    blank ones. *)
Theorem parseDescription_lines (lines : list jsstring) :
  lines <> [] -> Forall (fun line => 10%N ∉ line) lines ->
  trim (join [10%N] lines) = join [10%N] lines ->
  parseDescription (join [10%N] lines)
  = descriptionMarkup (List.filter nonBlank lines).
Proof.
  intros Hne Hlines Htrim. unfold parseDescription.
  rewrite (nonBlankLines_join lines Hne Hlines Htrim).
  unfold descriptionMarkup. destruct (List.filter nonBlank lines); [reflexivity |].
  rewrite join_empty_mjoin. reflexivity.
Qed.

Lemma parseDescription_lines_witness :
  parseDescription (join [10%N] [str "<strong>Project Details:</strong>"; str "  ";
                                 str "WordPress theme development."])
  = descriptionMarkup
      (List.filter nonBlank [str "<strong>Project Details:</strong>"; str "  ";
                             str "WordPress theme development."]).
Proof.
  apply (parseDescription_lines [str "<strong>Project Details:</strong>"; str "  ";
                                 str "WordPress theme development."]).
  - discriminate.
  - rewrite !Forall_cons. repeat split; try apply Forall_nil;
      apply (bool_decide_unpack _); vm_compute; exact I.
  - vm_compute. reflexivity.
Defined.

(** On a text without white space at its ends, [parseNotes] makes each
    line that is not blank an item of the ordered list, in order, and
    drops the blank ones. *)
Theorem parseNotes_lines (lines : list jsstring) :
  lines <> [] -> Forall (fun line => 10%N ∉ line) lines ->
  trim (join [10%N] lines) = join [10%N] lines ->
  parseNotes (join [10%N] lines) = notesMarkup (List.filter nonBlank lines).
Proof.
  intros Hne Hlines Htrim. unfold parseNotes.
  rewrite (nonBlankLines_join lines Hne Hlines Htrim).
  unfold notesMarkup. destruct (List.filter nonBlank lines); [reflexivity |].
  rewrite join_empty_mjoin. reflexivity.
Qed.

Lemma parseNotes_lines_witness :
  parseNotes (join [10%N] [str "Thank you."; str ""; str "Payment is due within 30 days."])
  = notesMarkup
      (List.filter nonBlank [str "Thank you."; str ""; str "Payment is due within 30 days."]).
Proof.
  apply (parseNotes_lines [str "Thank you."; str ""; str "Payment is due within 30 days."]).
  - discriminate.
  - rewrite !Forall_cons. repeat split; try apply Forall_nil;
      apply (bool_decide_unpack _); vm_compute; exact I.
  - vm_compute. reflexivity.
Defined.

(** ** organizeInvoiceInfo *)

Lemma truthy_not_empty (v : JsValue) : ToBoolean v = true -> isEmpty v = false.
Proof. destruct v as [| | x | [| c s] | o]; try reflexivity; intros H; discriminate H. Qed.

(** [cleanPrice(data.key || 0)] throws with the conversion of the field,
    and otherwise gives the Number the field reads as. *)
Lemma cleanPriceOf_field (data : gmap jsstring FrontMatterValue) (key : string) :
  cleanPriceOf (orElse (field data key) (JNum 0))
  = match field data key with
    | Composite (Throw message) => Throw message
    | _ => Ok (JNum (parsedField data key))
    end.
Proof.
  unfold parsedField, orElse.
  destruct (field data key) as [v | [] | [s | message]]; try reflexivity.
  cbn [truthy]. destruct (ToBoolean v) eqn:E; [| reflexivity].
  cbn [cleanPriceOf]. unfold cleanPrice. rewrite (truthy_not_empty v E). reflexivity.
Qed.

Lemma cleanPriceOf_convertible (data : gmap jsstring FrontMatterValue) (key : string) :
  convertible (field data key) = true ->
  cleanPriceOf (orElse (field data key) (JNum 0)) = Ok (JNum (parsedField data key)).
Proof.
  intros H. rewrite cleanPriceOf_field.
  destruct (field data key) as [v | b | [s | message]]; try reflexivity.
  discriminate H.
Qed.

Lemma frontMatterAmount_not_nan (data : gmap jsstring FrontMatterValue) (key : string) :
  isNaN (frontMatterAmount data key) = false.
Proof.
  unfold frontMatterAmount. cbv zeta.
  destruct (0 <? _)%float eqn:E; [| reflexivity].
  destruct (isNaN _) eqn:Hn; [| reflexivity].
  rewrite (nan_not_positive _ Hn) in E. discriminate E.
Qed.

Lemma resolvedTaxRate_parsed (x : float) :
  resolvedTaxRate (cleanPrice (JNum x)) = if (0 <? x)%float then x else 0%float.
Proof.
  unfold cleanPrice, isEmpty, parseFloat, resolvedTaxRate.
  destruct (PrimFloat.is_zero x) eqn:Hz; [| reflexivity].
  destruct (0 <? x)%float eqn:E; [| reflexivity].
  destruct (positive_not_zero _ E) as [Hz' _]. congruence.
Qed.

Lemma calculateInvoiceTotals_frontMatter (data : gmap jsstring FrontMatterValue)
    (currency : jsstring) (items : list LineItem.t) :
  calculateInvoiceTotals
    {| Invoice.tables := items;
       Invoice.tax := JNum (parsedField data "tax");
       Invoice.otherFee := JNum (parsedField data "otherFee");
       Invoice.discount := JNum (parsedField data "discount");
       Invoice.currency := currency |}
  = if isNaN (leftToRightSum (LineItem.totalWithTax <$> items))
    then Throw arithmeticError
    else Ok (invoiceTotals data currency items).
Proof.
  unfold calculateInvoiceTotals, invoiceTotals, totalsOf.
  cbn [Invoice.tables Invoice.tax Invoice.otherFee Invoice.discount Invoice.currency].
  rewrite !calculateAmount_number, reduce_leftToRightSum.
  fold (frontMatterAmount data "tax"). fold (frontMatterAmount data "otherFee").
  fold (frontMatterAmount data "discount").
  set (subtotal := leftToRightSum _).
  destruct (isNaN subtotal) eqn:Hs.
  - rewrite calculatePercentage_nan; [reflexivity | left; exact Hs].
  - rewrite !calculatePercentage_numbers
      by (exact Hs || apply frontMatterAmount_not_nan).
    reflexivity.
Qed.

Lemma parseAndValidateTable_validates (slugKey : jsstring -> jsstring)
    (jsonTables : option (list (list (list (jsstring * JsValue)))))
    (rows : list Row.t) :
  parseAndValidateTable slugKey jsonTables = Ok rows -> validateDataRows rows = Ok tt.
Proof.
  intros H. apply parseAndValidateTable_inv in H as (first & rest & _ & _ & Hv).
  exact Hv.
Qed.

(** What [organizeInvoiceInfo] does once the four financial fields have
    been converted. *)
Lemma organizeInvoiceInfo_converted (slugKey : jsstring -> jsstring)
    (data : gmap jsstring FrontMatterValue)
    (jsonTables : option (list (list (list (jsstring * JsValue))))) :
  Forall (fun key => convertible (field data key) = true) financialKeys ->
  organizeInvoiceInfo slugKey data jsonTables
  = (rows <- parseAndValidateTable slugKey jsonTables ;;
     match orElse (field data "currency") (JStr (str "usd")) with
     | Scalar (JStr currency) =>
         let items := invoiceItems data currency rows in
         if isNaN (leftToRightSum (LineItem.totalWithTax <$> items))
         then Throw arithmeticError
         else
           Ok {| InvoiceInfo.bodyStyle :=
                   str "<style>body{margin:0 auto;width:1024px;transform:scale(4);transform-origin:left top;padding:35px}</style>";
                 InvoiceInfo.tableBody := generateTableBody items;
                 InvoiceInfo.tableFoot :=
                   generateTableFoot (invoiceTotals data currency items);
                 InvoiceInfo.totalPrice :=
                   Totals.totalHtml (invoiceTotals data currency items) |}
     | _ => Throw currencyTypeError
     end).
Proof.
  intros Hconv. unfold financialKeys in Hconv.
  apply Forall_cons in Hconv as [Hs Hconv]. apply Forall_cons in Hconv as [Ht Hconv].
  apply Forall_cons in Hconv as [Hf Hconv]. apply Forall_cons in Hconv as [Hd _].
  unfold organizeInvoiceInfo, extractInvoiceData.
  rewrite (cleanPriceOf_convertible _ _ Hs), (cleanPriceOf_convertible _ _ Ht),
    (cleanPriceOf_convertible _ _ Hf), (cleanPriceOf_convertible _ _ Hd).
  cbn [bind].
  destruct (parseAndValidateTable slugKey jsonTables) as [rows | m] eqn:Hrows;
    cbn [bind]; [| reflexivity].
  pose proof (parseAndValidateTable_validates _ _ _ Hrows) as Hv.
  destruct (orElse (field data "currency") (JStr (str "usd")))
    as [[| | x | currency | o] | b | string]; try reflexivity.
  rewrite (calculateUnitTotals_ok rows currency _ (validated_prices rows Hv)).
  rewrite resolvedTaxRate_parsed. cbn [bind].
  fold (frontMatterAmount data "serviceTax"). fold (invoiceItems data currency rows).
  rewrite calculateInvoiceTotals_frontMatter.
  cbv zeta. destruct (isNaN _); reflexivity.
Qed.

(** The pipeline end to end: when none of the four financial fields is
    an object whose conversion to a string throws, the table has been
    validated, the currency is a String (or missing: then "usd") and the
    line totals sum to a number, [organizeInvoiceInfo] returns the body
    of the line items with the front matter's service tax, the footer of
    their totals, and as total price the rounded total in the currency. *)
Theorem organizeInvoiceInfo_composes (slugKey : jsstring -> jsstring)
    (data : gmap jsstring FrontMatterValue)
    (jsonTables : option (list (list (list (jsstring * JsValue)))))
    (rows : list Row.t) (currency : jsstring) :
  Forall (fun key => convertible (field data key) = true) financialKeys ->
  parseAndValidateTable slugKey jsonTables = Ok rows ->
  orElse (field data "currency") (JStr (str "usd")) = Scalar (JStr currency) ->
  let items := invoiceItems data currency rows in
  let subtotal := leftToRightSum (LineItem.totalWithTax <$> items) in
  let total :=
    (subtotal + (subtotal * frontMatterAmount data "tax") / 100
     + (subtotal * frontMatterAmount data "otherFee") / 100
     - frontMatterAmount data "discount")%float in
  isNaN subtotal = false ->
  exists info,
    organizeInvoiceInfo slugKey data jsonTables = Ok info
    /\ InvoiceInfo.tableBody info = generateTableBody items
    /\ InvoiceInfo.tableFoot info
       = generateTableFoot (invoiceTotals data currency items)
    /\ InvoiceInfo.totalPrice info = formatPrice (JNum (Math_round total)) currency.
Proof.
  intros Hconv Hrows Hcur items subtotal total Hs.
  rewrite (organizeInvoiceInfo_converted _ _ _ Hconv), Hrows. cbn [bind].
  rewrite Hcur. cbv zeta. fold items. fold subtotal. rewrite Hs.
  eexists. repeat split.
Qed.

Lemma organizeInvoiceInfo_composes_witness :
  let data : gmap jsstring FrontMatterValue :=
    {[ str "serviceTax" := Scalar (J "20%"); str "tax" := Scalar (J "15%");
       str "otherFee" := Composite (Ok (str "4,5")); str "currency" := Scalar (J "GBP");
       str "discount" := Scalar (JNum 3) ]} in
  let jsonTables :=
    Some [[ [(str "Item", J "A"); (str "Price", J "10.00"); (str "Qty", J "2")] ]] in
  let items := invoiceItems data (str "GBP") [Row.make (J "A") (J "10.00") (J "2")] in
  let subtotal := leftToRightSum (LineItem.totalWithTax <$> items) in
  let total :=
    (subtotal + (subtotal * frontMatterAmount data "tax") / 100
     + (subtotal * frontMatterAmount data "otherFee") / 100
     - frontMatterAmount data "discount")%float in
  exists info,
    organizeInvoiceInfo toLowerCase data jsonTables = Ok info
    /\ InvoiceInfo.tableBody info = generateTableBody items
    /\ InvoiceInfo.tableFoot info
       = generateTableFoot (invoiceTotals data (str "GBP") items)
    /\ InvoiceInfo.totalPrice info = formatPrice (JNum (Math_round total)) (str "GBP").
Proof.
  apply (organizeInvoiceInfo_composes toLowerCase).
  - repeat (apply Forall_cons; split); try (apply Forall_nil; exact I);
      vm_compute; reflexivity.
  - vm_compute. reflexivity.
  - vm_compute. reflexivity.
  - vm_compute. reflexivity.
Defined.




